(** * ATLAS investment summary: the rule-based judgment engine

    A shallow embedding of [src/investment_summary.py]
    ([InvestmentSummaryGenerator]) and the properties its specification
    states about it.

    - Python floats are IEEE binary64 numbers: Rocq's primitive [float].
    - The [financials] dict, the [growth_rates] dict and the dicts the
      methods return are finite maps with string keys.
    - The generator object is the state of a small state-and-exception
      monad; every method is a computation in it.
    - The pandas table behind [self.ratios] is modelled by its row labels,
      its column labels and its cells. *)

From Stdlib Require Import ZArith PrimFloat SpecFloat FloatOps FloatAxioms.
From stdpp Require Import gmap strings list fin_maps pretty.

Set Default Proof Using "Type".
Set Warnings "-inexact-float".

(** ** Python values *)

(** The exceptions the modelled operations can raise. *)
Inductive exn : Set :=
| AttributeError | KeyError | IndexError | TypeError | ValueError | OverflowError.

(** What a Python expression evaluates to: a value, or an exception. *)
Inductive result (A : Type) : Type :=
| Ok (a : A)
| Err (e : exn).
Arguments Ok {A} a.
Arguments Err {A} e.

(** A value stored in a table cell or in the growth-rate dict.  [PObj]
    stands for any other Python object (a [str], a [list], [pd.NA], ...);
    the accessors only ever test such an object with [pd.notna] and convert
    it with [float], so it is described by what these two do on it: the
    truth value of [pd.notna(v)] and the value of [float(v)], each of which
    may raise instead. *)
Inductive pyval : Type :=
| PNone
| PFloat (x : float)
| PInt (n : Z)
| PObj (notna : result bool) (as_float : result float).

(** [float(n)] for a Python int: the nearest binary64 number, ties to even. *)
Definition float_of_Z (n : Z) : float :=
  SF2Prim (binary_normalize prec emax n 0%Z false).

(** [float(v)]. *)
Definition py_float (v : pyval) : result float :=
  match v with
  | PNone => Err TypeError
  | PFloat x => Ok x
  | PInt n =>
      let x := float_of_Z n in
      if is_infinity x then Err OverflowError else Ok x
  | PObj _ f => f
  end.

(** The truth value of [pd.notna(v)]. *)
Definition pd_notna (v : pyval) : result bool :=
  match v with
  | PNone => Ok false
  | PFloat x => Ok (negb (is_nan x))
  | PInt _ => Ok true
  | PObj b _ => b
  end.

(** A [default] argument ([None] or a float) seen as a value. *)
Definition of_default (default : option float) : pyval :=
  match default with
  | None => PNone
  | Some x => PFloat x
  end.

(** ** pandas tables *)

(** An axis label: the names looked up are strings, a default
    [RangeIndex] holds integers. *)
Inductive label : Set :=
| LStr (s : string)
| LInt (n : Z).

Global Instance label_eq_dec : EqDecision label.
Proof. solve_decision. Defined.

(** A [pd.DataFrame]: row labels, column labels, and the cell at each
    (row position, column position). *)
Record DataFrame : Type := {
  df_index : list label;
  df_columns : list label;
  df_cell : nat → nat → pyval;
}.

(** [pd.DataFrame()] *)
Definition empty_frame : DataFrame :=
  {| df_index := []; df_columns := []; df_cell := λ _ _, PNone |}.

(** What an indexing operation on a table yields: a cell value, a Series
    (one row or one column), or a sub-table. *)
Inductive pandas_obj : Type :=
| Scalar (v : pyval)
| Series (vs : list pyval)
| Frame (df : DataFrame).

(** The positions at which [l] occurs in [ls]. *)
Fixpoint positions_from (i : nat) (l : label) (ls : list label) : list nat :=
  match ls with
  | [] => []
  | l' :: ls' =>
      if decide (l = l')
      then i :: positions_from (S i) l ls'
      else positions_from (S i) l ls'
  end.
Definition positions := positions_from 0.

(** [df.empty]: some axis has length 0. *)
Definition df_empty (df : DataFrame) : bool :=
  bool_decide (df_index df = []) || bool_decide (df_columns df = []).

(** [len(df)] *)
Definition df_len (df : DataFrame) : nat := length (df_index df).

Definition df_row (df : DataFrame) (i : nat) : list pyval :=
  df_cell df i <$> seq 0 (length (df_columns df)).

Definition df_column (df : DataFrame) (j : nat) : list pyval :=
  (λ i, df_cell df i j) <$> seq 0 (length (df_index df)).

(** The sub-table of the rows at positions [rows]. *)
Definition df_take_rows (df : DataFrame) (rows : list nat) : DataFrame :=
  {| df_index := (λ i, nth i (df_index df) (LInt 0%Z)) <$> rows;
     df_columns := df_columns df;
     df_cell := λ i j, df_cell df (nth i rows 0%nat) j |}.

(** The sub-table of the columns at positions [cols]. *)
Definition df_take_columns (df : DataFrame) (cols : list nat) : DataFrame :=
  {| df_index := df_index df;
     df_columns := (λ j, nth j (df_columns df) (LInt 0%Z)) <$> cols;
     df_cell := λ i j, df_cell df i (nth j cols 0%nat) |}.

(** [df.loc[name]]: the row labelled [name] as a Series; a sub-table when
    the label occurs more than once. *)
Definition df_loc (df : DataFrame) (name : string) : result pandas_obj :=
  match positions (LStr name) (df_index df) with
  | [] => Err KeyError
  | [i] => Ok (Series (df_row df i))
  | rows => Ok (Frame (df_take_rows df rows))
  end.

(** [df[name]]: the column labelled [name] as a Series; a sub-table when
    the label occurs more than once. *)
Definition df_getitem (df : DataFrame) (name : string) : result pandas_obj :=
  match positions (LStr name) (df_columns df) with
  | [] => Err KeyError
  | [j] => Ok (Series (df_column df j))
  | cols => Ok (Frame (df_take_columns df cols))
  end.

(** [obj.iloc[0]]: the first element of a Series, the first row of a
    table. *)
Definition iloc0 (obj : pandas_obj) : result pandas_obj :=
  match obj with
  | Scalar _ => Err AttributeError
  | Series [] => Err IndexError
  | Series (v :: _) => Ok (Scalar v)
  | Frame df =>
      match df_index df with
      | [] => Err IndexError
      | _ :: _ => Ok (Series (df_row df 0))
      end
  end.

(** [float(val) if pd.notna(val) else default].  On a Series or a table
    [pd.notna] answers elementwise, and the truth value of that answer
    raises [ValueError]. *)
Definition float_if_notna (val : pandas_obj) (default : option float)
  : result (option float) :=
  match val with
  | Scalar v =>
      match pd_notna v with
      | Ok true =>
          match py_float v with
          | Ok x => Ok (Some x)
          | Err e => Err e
          end
      | Ok false => Ok default
      | Err e => Err e
      end
  | Series _ | Frame _ => Err ValueError
  end.

(** ** The generator object and its methods' monad *)

(** A value of the [financials] dict, hence of an attribute of the
    generator.  [OOther] is any object that has neither an [empty]
    attribute nor a [get] method (a number, a list, ...). *)
Inductive pyobj : Type :=
| ONone
| OStr (s : string)
| OFrame (df : DataFrame)
| ODict (d : gmap string pyval)
| OOther.

(** The attributes [__init__] sets. *)
Record Generator : Type := {
  financials : gmap string pyobj;
  ticker : pyobj;
  company_name : pyobj;
  ratios : pyobj;
  growth_rates : pyobj;
  market_data : pyobj;
}.

(** How a method call ends: it returns a value, raises, or (a [while]
    loop that used up its fuel) has not finished. *)
Inductive outcome (A : Type) : Type :=
| Returns (a : A)
| Raises (e : exn)
| Diverges.
Arguments Returns {A} a.
Arguments Raises {A} e.
Arguments Diverges {A}.

(** A method body: from the object before the call to how the call ends
    and the object after it. *)
Definition M (A : Type) : Type := Generator → outcome A * Generator.

Global Instance M_ret : MRet M := λ A a self, (Returns a, self).

Global Instance M_bind : MBind M := λ A B f m self,
  match m self with
  | (Returns a, self') => f a self'
  | (Raises e, self') => (Raises e, self')
  | (Diverges, self') => (Diverges, self')
  end.

(** Reading an attribute of [self]. *)
Definition attr {A : Type} (field : Generator → A) : M A :=
  λ self, (Returns (field self), self).

(** Evaluating an expression that may raise. *)
Definition eval {A : Type} (r : result A) : M A :=
  λ self, match r with
          | Ok a => (Returns a, self)
          | Err e => (Raises e, self)
          end.

(** [try: body except: handler] (a bare [except] catches everything). *)
Definition try_except {A : Type} (body handler : M A) : M A :=
  λ self, match body self with
          | (Raises _, self') => handler self'
          | other => other
          end.

(** [while cond(s): s = body(s)], run for at most [fuel] iterations. *)
Fixpoint while {S : Type} (fuel : nat) (cond : S → bool) (body : S → S)
    (s : S) : M S :=
  if cond s then
    match fuel with
    | O => λ self, (Diverges, self)
    | Datatypes.S fuel' => while fuel' cond body (body s)
    end
  else mret s.

(** [__init__(self, financials)] *)
Definition __init__ (financials : gmap string pyobj) : Generator :=
  {| financials := financials;
     ticker := default (OStr "N/A") (financials !! "ticker");
     company_name := default (OStr "Unknown Company") (financials !! "company_name");
     ratios := default (OFrame empty_frame) (financials !! "ratios");
     growth_rates := default (ODict ∅) (financials !! "growth_rates");
     market_data := default (ODict ∅) (financials !! "market_data") |}.

(** [name in axis] for an index or a column axis. *)
Definition label_in (name : string) (axis : list label) : bool :=
  bool_decide (LStr name ∈ axis).

(** The [try] block of [_get_ratio]. *)
Definition _get_ratio_try (name : string) (default : option float)
  : M (option float) :=
  ratios ← attr ratios;
  match ratios with
  | ONone => mret default
  | OFrame df =>
      if df_empty df then mret default
      else if label_in name (df_index df) then
        val ← eval (df_loc df name);
        val ← match val with
              | Series vs =>
                  if bool_decide (0 < length vs)%nat then eval (iloc0 val)
                  else mret (Scalar (of_default default))
              | _ => mret val
              end;
        eval (float_if_notna val default)
      else if label_in name (df_columns df) then
        val ← (if bool_decide (0 < df_len df)%nat
               then col ← eval (df_getitem df name); eval (iloc0 col)
               else mret (Scalar (of_default default)));
        eval (float_if_notna val default)
      else mret default
  | OStr _ | ODict _ | OOther => eval (Err AttributeError)
  end.

(** [_get_ratio(self, name, default=None)] *)
Definition _get_ratio (name : string) (default : option float)
  : M (option float) :=
  try_except (_get_ratio_try name default) (mret default).

(** The [try] block of [_get_growth_rate].  [dict.get] yields the stored
    value or [default]; a table's [get] yields the column, or [default]
    when indexing raises. *)
Definition _get_growth_rate_try (name : string) (default : option float)
  : M (option float) :=
  growth_rates ← attr growth_rates;
  val ← match growth_rates with
        | ODict d =>
            mret (Scalar (from_option id (of_default default) (d !! name)))
        | OFrame df =>
            mret (match df_getitem df name with
                  | Ok col => col
                  | Err _ => Scalar (of_default default)
                  end)
        | ONone | OStr _ | OOther => eval (Err AttributeError)
        end;
  match val with
  | Scalar PNone => mret default
  | _ => eval (float_if_notna val default)
  end.

(** [_get_growth_rate(self, name, default=None)] *)
Definition _get_growth_rate (name : string) (default : option float)
  : M (option float) :=
  try_except (_get_growth_rate_try name default) (mret default).

(** ** Number formatting *)

(** The f-string format specs [:.1f] and [:.2f]: the decimal expansion of
    the float's exact value, rounded to [digits] places, ties to even. *)
Fixpoint zeros (n : nat) : string :=
  match n with
  | O => EmptyString
  | S n' => String (Ascii.ascii_of_nat 48) (zeros n')
  end.

(** The integer nearest to [n * 2 ^ e], ties to even. *)
Definition round_half_even (n : Z) (e : Z) : Z :=
  if (0 <=? e)%Z then (n * 2 ^ e)%Z
  else
    let den := (2 ^ (- e))%Z in
    let q := (n `div` den)%Z in
    let r := (n `mod` den)%Z in
    if (2 * r <? den)%Z then q
    else if (den <? 2 * r)%Z then (q + 1)%Z
    else if Z.even q then q else (q + 1)%Z.

(** [q / 10 ^ digits] written with [digits] decimal places. *)
Definition fixed_point (digits : nat) (q : Z) : string :=
  let ds := pretty q in
  let ds := zeros (S digits - String.length ds) +:+ ds in
  let k := (String.length ds - digits)%nat in
  if decide (digits = 0%nat) then ds
  else String.substring 0 k ds +:+ "." +:+ String.substring k digits ds.

Definition format_f (digits : nat) (x : float) : string :=
  match Prim2SF x with
  | S754_nan => "nan"
  | S754_infinity s => if s then "-inf" else "inf"
  | S754_zero s => (if s then "-" else EmptyString) +:+ fixed_point digits 0%Z
  | S754_finite s m e =>
      (if s then "-" else EmptyString)
      +:+ fixed_point digits (round_half_even (Z.pos m * 10 ^ Z.of_nat digits)%Z e)
  end.


Example format_f_percent : format_f 1 (0.2 * 100)%float = "20.0".
Proof. vm_compute. reflexivity. Qed.

Example format_f_tie_to_even : format_f 2 0.125%float = "0.12".
Proof. vm_compute. reflexivity. Qed.

Example format_f_negative : format_f 1 (-0.05 * 100)%float = "-5.0".
Proof. vm_compute. reflexivity. Qed.

(** ** Comparisons on values that may be [None] *)

(** [a >= b], [a <= b], [a < b], [a > b] where [a] may be [None]:
    comparing [None] with a float raises [TypeError]. *)
Definition py_ge (a : option float) (b : float) : result bool :=
  match a with Some x => Ok (b <=? x)%float | None => Err TypeError end.
Definition py_le (a : option float) (b : float) : result bool :=
  match a with Some x => Ok (x <=? b)%float | None => Err TypeError end.
Definition py_lt (a : option float) (b : float) : result bool :=
  match a with Some x => Ok (x <? b)%float | None => Err TypeError end.
Definition py_gt (a : option float) (b : float) : result bool :=
  match a with Some x => Ok (b <? x)%float | None => Err TypeError end.

(** [a and b], [a or b]: the right operand is evaluated only if needed. *)
Definition and_ (a b : M bool) : M bool :=
  x ← a; if x : bool then b else mret false.
Definition or_ (a b : M bool) : M bool :=
  x ← a; if x : bool then mret true else b.

(** ** Bull and bear cases *)

(** One pass of
    [for fallback in fallback_points:
         if fallback not in points and len(points) < 3: points.append(fallback)] *)
Definition pad_pass (fallback_points : list string) (points : list string)
  : list string :=
  foldl (λ points fallback,
           if bool_decide (fallback ∉ points) && bool_decide (length points < 3)
           then points ++ [fallback] else points)
        points fallback_points.

(** [while len(points) < 3: <one pass>] *)
Definition pad (fuel : nat) (fallback_points : list string)
    (points : list string) : M (list string) :=
  while fuel (λ points, bool_decide (length points < 3))
        (pad_pass fallback_points) points.

Definition bull_fallback_points : list string :=
  [ "Established market position with brand recognition";
    "Diversified revenue streams reduce concentration risk";
    "Experienced management team with track record" ].

(** [generate_bull_case(self)] *)
Definition generate_bull_case (fuel : nat) : M (list string) :=
  let bull_points := [] in
  roe ← _get_ratio "ROE" None;
  let bull_points :=
    match roe with
    | Some roe =>
        if (0.15 <? roe)%float then
          bull_points ++
          ["Strong profitability: ROE of " +:+ format_f 1 (roe * 100)%float
           +:+ "%, indicating efficient use of shareholder capital"]
        else bull_points
    | None => bull_points
    end in
  gross_margin ← _get_ratio "Gross_Margin" None;
  let bull_points :=
    match gross_margin with
    | Some gross_margin =>
        if (0.30 <? gross_margin)%float then
          bull_points ++
          ["Healthy margins: Gross margin of "
           +:+ format_f 1 (gross_margin * 100)%float
           +:+ "%, demonstrating pricing power"]
        else bull_points
    | None => bull_points
    end in
  op_margin ← _get_ratio "Operating_Margin" None;
  let bull_points :=
    match op_margin with
    | Some op_margin =>
        if (0.15 <? op_margin)%float then
          bull_points ++
          ["Strong operating efficiency: Operating margin of "
           +:+ format_f 1 (op_margin * 100)%float +:+ "%"]
        else bull_points
    | None => bull_points
    end in
  current_ratio ← _get_ratio "Current_Ratio" None;
  let bull_points :=
    match current_ratio with
    | Some current_ratio =>
        if (1.5 <? current_ratio)%float then
          bull_points ++
          ["Solid liquidity: Current ratio of " +:+ format_f 2 current_ratio
           +:+ "x provides financial flexibility"]
        else bull_points
    | None => bull_points
    end in
  de_ratio ← _get_ratio "Debt_to_Equity" None;
  let bull_points :=
    match de_ratio with
    | Some de_ratio =>
        if (de_ratio <? 0.5)%float then
          bull_points ++
          ["Conservative balance sheet: Debt/Equity of " +:+ format_f 2 de_ratio
           +:+ "x indicates low financial risk"]
        else bull_points
    | None => bull_points
    end in
  rev_cagr ← _get_growth_rate "Total_Revenue_CAGR" None;
  let bull_points :=
    match rev_cagr with
    | Some rev_cagr =>
        if (0.10 <? rev_cagr)%float then
          bull_points ++
          ["Consistent growth: Revenue CAGR of "
           +:+ format_f 1 (rev_cagr * 100)%float
           +:+ "% demonstrates market expansion"]
        else bull_points
    | None => bull_points
    end in
  net_income ← _get_ratio "Net_Income" None;
  ocf ← _get_ratio "Operating_Cash_Flow" None;
  let bull_points :=
    match net_income, ocf with
    | Some net_income, Some ocf =>
        if (net_income <? ocf)%float && (0 <? net_income)%float then
          bull_points ++
          ["Excellent cash generation: Operating cash flow exceeds net income"]
        else bull_points
    | _, _ => bull_points
    end in
  bull_points ← pad fuel bull_fallback_points bull_points;
  mret (take 3 bull_points).

Definition bear_fallback_points : list string :=
  [ "Competitive pressure may compress margins over time";
    "Macroeconomic sensitivity could impact near-term results";
    "Execution risk in strategic initiatives" ].

(** [generate_bear_case(self)] *)
Definition generate_bear_case (fuel : nat) : M (list string) :=
  let bear_points := [] in
  pe_ratio ← _get_ratio "PE_Ratio" None;
  let bear_points :=
    match pe_ratio with
    | Some pe_ratio =>
        if (30 <? pe_ratio)%float then
          bear_points ++
          ["Premium valuation: P/E ratio of " +:+ format_f 1 pe_ratio
           +:+ "x may limit upside potential"]
        else bear_points
    | None => bear_points
    end in
  de_ratio ← _get_ratio "Debt_to_Equity" None;
  let bear_points :=
    match de_ratio with
    | Some de_ratio =>
        if (1.5 <? de_ratio)%float then
          bear_points ++
          ["High leverage risk: Debt/Equity of " +:+ format_f 2 de_ratio
           +:+ "x increases financial vulnerability"]
        else bear_points
    | None => bear_points
    end in
  rev_cagr ← _get_growth_rate "Total_Revenue_CAGR" None;
  let bear_points :=
    match rev_cagr with
    | Some rev_cagr =>
        if (rev_cagr <? 0.03)%float then
          if (rev_cagr <? 0)%float then
            bear_points ++
            ["Revenue decline: " +:+ format_f 1 (rev_cagr * 100)%float
             +:+ "% CAGR signals market share loss"]
          else
            bear_points ++
            ["Slowing growth: " +:+ format_f 1 (rev_cagr * 100)%float
             +:+ "% revenue CAGR suggests market maturation"]
        else bear_points
    | None => bear_points
    end in
  op_margin ← _get_ratio "Operating_Margin" None;
  let bear_points :=
    match op_margin with
    | Some op_margin =>
        if (op_margin <? 0.05)%float then
          bear_points ++
          ["Thin margins: Operating margin of "
           +:+ format_f 1 (op_margin * 100)%float
           +:+ "% leaves little room for error"]
        else bear_points
    | None => bear_points
    end in
  current_ratio ← _get_ratio "Current_Ratio" None;
  let bear_points :=
    match current_ratio with
    | Some current_ratio =>
        if (current_ratio <? 1.0)%float then
          bear_points ++
          ["Liquidity concerns: Current ratio of " +:+ format_f 2 current_ratio
           +:+ "x may strain operations"]
        else bear_points
    | None => bear_points
    end in
  roe ← _get_ratio "ROE" None;
  let bear_points :=
    match roe with
    | Some roe =>
        if (roe <? 0.05)%float then
          if (roe <? 0)%float then
            bear_points ++
            ["Negative profitability: ROE of " +:+ format_f 1 (roe * 100)%float
             +:+ "% indicates losses"]
          else
            bear_points ++
            ["Low returns: ROE of " +:+ format_f 1 (roe * 100)%float
             +:+ "% underperforms cost of equity"]
        else bear_points
    | None => bear_points
    end in
  bear_points ← pad fuel bear_fallback_points bear_points;
  mret (take 3 bear_points).

(** ** Risk assessment *)

(** [assess_risks(self)] *)
Definition assess_risks : M (gmap string string) :=
  let risks : gmap string string := ∅ in
  current_ratio ← _get_ratio "Current_Ratio" (Some 1.0%float);
  de_ratio ← _get_ratio "Debt_to_Equity" (Some 1.0%float);
  low ← and_ (eval (py_ge current_ratio 1.5)) (eval (py_le de_ratio 0.5));
  risks ←
    (if low : bool then mret (<["Financial Health" := "LOW"]> risks)
     else
       high ← or_ (eval (py_lt current_ratio 1.0)) (eval (py_gt de_ratio 2.0));
       if high : bool then mret (<["Financial Health" := "HIGH"]> risks)
       else mret (<["Financial Health" := "MODERATE"]> risks));
  pe_ratio ← _get_ratio "PE_Ratio" (Some 20.0%float);
  let risks :=
    match pe_ratio with
    | Some pe_ratio =>
        if (pe_ratio <? 20)%float then <["Valuation" := "LOW"]> risks
        else if (40 <? pe_ratio)%float then <["Valuation" := "HIGH"]> risks
        else <["Valuation" := "MODERATE"]> risks
    | None => <["Valuation" := "MODERATE"]> risks
    end in
  rev_cagr ← _get_growth_rate "Total_Revenue_CAGR" (Some 0.05%float);
  let risks :=
    match rev_cagr with
    | Some rev_cagr =>
        if (0.10 <? rev_cagr)%float then <["Growth" := "LOW"]> risks
        else if (rev_cagr <? 0)%float then <["Growth" := "HIGH"]> risks
        else <["Growth" := "MODERATE"]> risks
    | None => <["Growth" := "MODERATE"]> risks
    end in
  low ← eval (py_ge current_ratio 2.0);
  risks ←
    (if low : bool then mret (<["Liquidity" := "LOW"]> risks)
     else
       high ← eval (py_lt current_ratio 1.0);
       if high : bool then mret (<["Liquidity" := "HIGH"]> risks)
       else mret (<["Liquidity" := "MODERATE"]> risks));
  roe ← _get_ratio "ROE" (Some 0.10%float);
  op_margin ← _get_ratio "Operating_Margin" (Some 0.10%float);
  let risks :=
    match roe, op_margin with
    | Some roe, Some op_margin =>
        if (0.15 <? roe)%float && (0.15 <? op_margin)%float
        then <["Profitability" := "LOW"]> risks
        else if (roe <? 0)%float || (op_margin <? 0.05)%float
        then <["Profitability" := "HIGH"]> risks
        else <["Profitability" := "MODERATE"]> risks
    | _, _ => <["Profitability" := "MODERATE"]> risks
    end in
  mret risks.

(** ** Red flags *)

Definition no_red_flags : string :=
  "‚úÖ No major red flags detected - fundamentals appear healthy".

(** [detect_red_flags(self)] *)
Definition detect_red_flags : M (list string) :=
  let red_flags := [] in
  roe ← _get_ratio "ROE" None;
  let red_flags :=
    match roe with
    | Some roe =>
        if (roe <? 0)%float then
          red_flags ++
          ["Negative return on equity (" +:+ format_f 1 (roe * 100)%float
           +:+ "%) - company is destroying shareholder value"]
        else red_flags
    | None => red_flags
    end in
  de_ratio ← _get_ratio "Debt_to_Equity" None;
  let red_flags :=
    match de_ratio with
    | Some de_ratio =>
        if (2.0 <? de_ratio)%float then
          red_flags ++
          ["High leverage (" +:+ format_f 2 de_ratio
           +:+ "x D/E) - elevated bankruptcy risk"]
        else red_flags
    | None => red_flags
    end in
  current_ratio ← _get_ratio "Current_Ratio" None;
  let red_flags :=
    match current_ratio with
    | Some current_ratio =>
        if (current_ratio <? 0.8)%float then
          red_flags ++
          ["Liquidity crisis (Current Ratio: " +:+ format_f 2 current_ratio
           +:+ "x) - may struggle to meet obligations"]
        else red_flags
    | None => red_flags
    end in
  rev_cagr ← _get_growth_rate "Total_Revenue_CAGR" None;
  let red_flags :=
    match rev_cagr with
    | Some rev_cagr =>
        if (rev_cagr <? -0.05)%float then
          red_flags ++
          ["Significant revenue decline (" +:+ format_f 1 (rev_cagr * 100)%float
           +:+ "% CAGR) - business is shrinking"]
        else red_flags
    | None => red_flags
    end in
  pe_ratio ← _get_ratio "PE_Ratio" None;
  let red_flags :=
    match pe_ratio with
    | Some pe_ratio =>
        if (100 <? pe_ratio)%float then
          red_flags ++
          ["Extreme valuation (P/E: " +:+ format_f 1 pe_ratio
           +:+ "x) - priced for perfection"]
        else red_flags
    | None => red_flags
    end in
  let red_flags :=
    match red_flags with
    | [] => red_flags ++ [no_red_flags]
    | _ :: _ => red_flags
    end in
  mret red_flags.

(** ** Valuation range and key metrics *)

(** [calculate_valuation_range(self)].  The dict holds Python ints ([0],
    [-20], [25]) and floats. *)
Definition calculate_valuation_range : M (gmap string pyval) :=
  current_price ← _get_ratio "Current_Price" None;
  match current_price with
  | Some price =>
      if (price <=? 0)%float then
        mret (<["bear_case" := PInt 0]> (<["base_case" := PInt 0]>
              (<["bull_case" := PInt 0]> (<["bear_pct" := PInt (-20)]>
              (<["bull_pct" := PInt 25]> ∅)))))
      else
        mret (<["bear_case" := PFloat (price * 0.80)%float]>
              (<["base_case" := PFloat price]>
              (<["bull_case" := PFloat (price * 1.25)%float]>
              (<["bear_pct" := PInt (-20)]> (<["bull_pct" := PInt 25]> ∅)))))
  | None =>
      mret (<["bear_case" := PInt 0]> (<["base_case" := PInt 0]>
            (<["bull_case" := PInt 0]> (<["bear_pct" := PInt (-20)]>
            (<["bull_pct" := PInt 25]> ∅)))))
  end.

(** [get_key_metrics(self)] *)
Definition get_key_metrics : M (gmap string (option float)) :=
  current_price ← _get_ratio "Current_Price" None;
  pe_ratio ← _get_ratio "PE_Ratio" None;
  market_cap ← _get_ratio "Market_Cap" None;
  revenue ← _get_ratio "Total_Revenue" None;
  net_income ← _get_ratio "Net_Income" None;
  roe ← _get_ratio "ROE" None;
  de_ratio ← _get_ratio "Debt_to_Equity" None;
  current_ratio ← _get_ratio "Current_Ratio" None;
  mret (<["Current Price" := current_price]> (<["P/E Ratio" := pe_ratio]>
        (<["Market Cap" := market_cap]> (<["Revenue" := revenue]>
        (<["Net Income" := net_income]> (<["ROE" := roe]>
        (<["Debt/Equity" := de_ratio]> (<["Current Ratio" := current_ratio]>
        ∅)))))))).

(** ** The values the methods read *)

(** What [self._get_ratio(name)] and [self._get_growth_rate(name)] (no
    default) return on [self]: [None] when the value is absent or
    unusable. *)
Definition ratio_value (self : Generator) (name : string) : option float :=
  match (_get_ratio name None self).1 with
  | Returns v => v
  | _ => None
  end.

Definition growth_value (self : Generator) (name : string) : option float :=
  match (_get_growth_rate name None self).1 with
  | Returns v => v
  | _ => None
  end.

(** ** The decision tables of the specification *)

(** A signal rule: it fires when its input is present and satisfies its
    condition, and then yields its message. *)
Definition when (v : option float) (fires : float → bool)
    (message : float → string) : option string :=
  match v with
  | Some x => if fires x then Some (message x) else None
  | None => None
  end.

(** The bull rules 1 to 7, in order (specification, 4.2). *)
Definition bull_rules (self : Generator) : list (option string) :=
  [ when (ratio_value self "ROE") (λ roe, 0.15 <? roe)%float
      (λ roe, "Strong profitability: ROE of " +:+ format_f 1 (roe * 100)%float
              +:+ "%, indicating efficient use of shareholder capital");
    when (ratio_value self "Gross_Margin") (λ gm, 0.30 <? gm)%float
      (λ gm, "Healthy margins: Gross margin of " +:+ format_f 1 (gm * 100)%float
             +:+ "%, demonstrating pricing power");
    when (ratio_value self "Operating_Margin") (λ om, 0.15 <? om)%float
      (λ om, "Strong operating efficiency: Operating margin of "
             +:+ format_f 1 (om * 100)%float +:+ "%");
    when (ratio_value self "Current_Ratio") (λ cr, 1.5 <? cr)%float
      (λ cr, "Solid liquidity: Current ratio of " +:+ format_f 2 cr
             +:+ "x provides financial flexibility");
    when (ratio_value self "Debt_to_Equity") (λ de, de <? 0.5)%float
      (λ de, "Conservative balance sheet: Debt/Equity of " +:+ format_f 2 de
             +:+ "x indicates low financial risk");
    when (growth_value self "Total_Revenue_CAGR") (λ g, 0.10 <? g)%float
      (λ g, "Consistent growth: Revenue CAGR of " +:+ format_f 1 (g * 100)%float
            +:+ "% demonstrates market expansion");
    match ratio_value self "Net_Income", ratio_value self "Operating_Cash_Flow" with
    | Some net_income, Some ocf =>
        if (net_income <? ocf)%float && (0 <? net_income)%float
        then Some "Excellent cash generation: Operating cash flow exceeds net income"
        else None
    | _, _ => None
    end ].

(** The messages of the bull rules that fire, in rule order. *)
Definition bull_signals (self : Generator) : list string :=
  omap id (bull_rules self).

(** The bear rules 1 to 6, in order (specification, 4.3). *)
Definition bear_rules (self : Generator) : list (option string) :=
  [ when (ratio_value self "PE_Ratio") (λ pe, 30 <? pe)%float
      (λ pe, "Premium valuation: P/E ratio of " +:+ format_f 1 pe
             +:+ "x may limit upside potential");
    when (ratio_value self "Debt_to_Equity") (λ de, 1.5 <? de)%float
      (λ de, "High leverage risk: Debt/Equity of " +:+ format_f 2 de
             +:+ "x increases financial vulnerability");
    when (growth_value self "Total_Revenue_CAGR") (λ g, g <? 0.03)%float
      (λ g, if (g <? 0)%float
            then "Revenue decline: " +:+ format_f 1 (g * 100)%float
                 +:+ "% CAGR signals market share loss"
            else "Slowing growth: " +:+ format_f 1 (g * 100)%float
                 +:+ "% revenue CAGR suggests market maturation");
    when (ratio_value self "Operating_Margin") (λ om, om <? 0.05)%float
      (λ om, "Thin margins: Operating margin of " +:+ format_f 1 (om * 100)%float
             +:+ "% leaves little room for error");
    when (ratio_value self "Current_Ratio") (λ cr, cr <? 1.0)%float
      (λ cr, "Liquidity concerns: Current ratio of " +:+ format_f 2 cr
             +:+ "x may strain operations");
    when (ratio_value self "ROE") (λ roe, roe <? 0.05)%float
      (λ roe, if (roe <? 0)%float
              then "Negative profitability: ROE of " +:+ format_f 1 (roe * 100)%float
                   +:+ "% indicates losses"
              else "Low returns: ROE of " +:+ format_f 1 (roe * 100)%float
                   +:+ "% underperforms cost of equity") ].

Definition bear_signals (self : Generator) : list string :=
  omap id (bear_rules self).

(** The five red-flag checks, in order (specification, 4.5). *)
Definition red_flag_checks (self : Generator) : list (option string) :=
  [ when (ratio_value self "ROE") (λ roe, roe <? 0)%float
      (λ roe, "Negative return on equity (" +:+ format_f 1 (roe * 100)%float
              +:+ "%) - company is destroying shareholder value");
    when (ratio_value self "Debt_to_Equity") (λ de, 2.0 <? de)%float
      (λ de, "High leverage (" +:+ format_f 2 de
             +:+ "x D/E) - elevated bankruptcy risk");
    when (ratio_value self "Current_Ratio") (λ cr, cr <? 0.8)%float
      (λ cr, "Liquidity crisis (Current Ratio: " +:+ format_f 2 cr
             +:+ "x) - may struggle to meet obligations");
    when (growth_value self "Total_Revenue_CAGR") (λ g, g <? -0.05)%float
      (λ g, "Significant revenue decline (" +:+ format_f 1 (g * 100)%float
            +:+ "% CAGR) - business is shrinking");
    when (ratio_value self "PE_Ratio") (λ pe, 100 <? pe)%float
      (λ pe, "Extreme valuation (P/E: " +:+ format_f 1 pe
             +:+ "x) - priced for perfection") ].

(** The warnings of the checks that trigger, in order. *)
Definition triggered_flags (self : Generator) : list string :=
  omap id (red_flag_checks self).

(** The two-tier thresholds of the five risk categories (specification,
    4.4), on inputs that are present. *)
Definition financial_health (current_ratio de_ratio : float) : string :=
  if (1.5 <=? current_ratio)%float && (de_ratio <=? 0.5)%float then "LOW"
  else if (current_ratio <? 1.0)%float || (2.0 <? de_ratio)%float then "HIGH"
  else "MODERATE".

Definition valuation (pe_ratio : float) : string :=
  if (pe_ratio <? 20)%float then "LOW"
  else if (40 <? pe_ratio)%float then "HIGH"
  else "MODERATE".

Definition growth (rev_cagr : float) : string :=
  if (0.10 <? rev_cagr)%float then "LOW"
  else if (rev_cagr <? 0)%float then "HIGH"
  else "MODERATE".

Definition liquidity (current_ratio : float) : string :=
  if (2.0 <=? current_ratio)%float then "LOW"
  else if (current_ratio <? 1.0)%float then "HIGH"
  else "MODERATE".

Definition profitability (roe op_margin : float) : string :=
  if (0.15 <? roe)%float && (0.15 <? op_margin)%float then "LOW"
  else if (roe <? 0)%float || (op_margin <? 0.05)%float then "HIGH"
  else "MODERATE".

(** The risk map of a record whose missing inputs have been replaced by
    the stated defaults. *)
Definition risk_table (self : Generator) : gmap string string :=
  let current_ratio := default 1.0%float (ratio_value self "Current_Ratio") in
  let de_ratio := default 1.0%float (ratio_value self "Debt_to_Equity") in
  let pe_ratio := default 20.0%float (ratio_value self "PE_Ratio") in
  let rev_cagr := default 0.05%float (growth_value self "Total_Revenue_CAGR") in
  let roe := default 0.10%float (ratio_value self "ROE") in
  let op_margin := default 0.10%float (ratio_value self "Operating_Margin") in
  <["Profitability" := profitability roe op_margin]>
  (<["Liquidity" := liquidity current_ratio]>
  (<["Growth" := growth rev_cagr]>
  (<["Valuation" := valuation pe_ratio]>
  (<["Financial Health" := financial_health current_ratio de_ratio]> ∅)))).

(** The dict [calculate_valuation_range] returns, by its three prices. *)
Definition valuation_range (bear base bull : pyval) : gmap string pyval :=
  <["bear_case" := bear]> (<["base_case" := base]> (<["bull_case" := bull]>
  (<["bear_pct" := PInt (-20)]> (<["bull_pct" := PInt 25]> ∅)))).

(** ** Sample records *)

(** A row-oriented ratio table: one row per ratio, one value column. *)
Definition frame_of_rows (rows : list (string * pyval)) : DataFrame :=
  {| df_index := (λ r, LStr r.1) <$> rows;
     df_columns := [LStr "value"];
     df_cell := λ i _, from_option snd PNone (rows !! i) |}.

(** A column-oriented ratio table: one column per ratio, one row. *)
Definition frame_of_columns (cols : list (string * pyval)) : DataFrame :=
  {| df_index := [LInt 0];
     df_columns := (λ c, LStr c.1) <$> cols;
     df_cell := λ _ j, from_option snd PNone (cols !! j) |}.

(** The empty record [{}]. *)
Definition empty_record : gmap string pyobj := ∅.

(** A record on which every bull signal fires. *)
Definition strong_record : gmap string pyobj :=
  <["ticker" := OStr "ACME"]>
  (<["ratios" := OFrame (frame_of_rows
       [ ("ROE", PFloat 0.2); ("Gross_Margin", PFloat 0.45);
         ("Operating_Margin", PFloat 0.25); ("Current_Ratio", PFloat 2.1);
         ("Debt_to_Equity", PFloat 0.3); ("PE_Ratio", PFloat 18);
         ("Current_Price", PInt 100); ("Net_Income", PInt 500);
         ("Operating_Cash_Flow", PInt 650) ])]>
  (<["growth_rates" := ODict {[ "Total_Revenue_CAGR" := PFloat 0.12 ]}]> ∅)).

(** A record on which every red-flag check triggers, column-oriented, with
    a price of zero. *)
Definition distressed_record : gmap string pyobj :=
  <["ratios" := OFrame (frame_of_columns
       [ ("ROE", PFloat (-0.12)); ("Debt_to_Equity", PFloat 3.5);
         ("Current_Ratio", PFloat 0.6); ("PE_Ratio", PFloat 150);
         ("Operating_Margin", PFloat 0.01); ("Current_Price", PInt 0) ])]>
  (<["growth_rates" := ODict {[ "Total_Revenue_CAGR" := PFloat (-0.08) ]}]> ∅).

(** A record whose Debt_to_Equity is exactly 0.5 and nothing else. *)
Definition boundary_record : gmap string pyobj :=
  <["ratios" := OFrame (frame_of_rows [ ("Debt_to_Equity", PFloat 0.5) ])]> ∅.

(** A record with malformed fields: [ratios] is not a table and
    [growth_rates] is [None]. *)
Definition malformed_record : gmap string pyobj :=
  <["ratios" := OOther]> (<["growth_rates" := ONone]> ∅).

(** A record whose values are unusable one by one: a [None], a NaN, a
    text that [float] rejects, an object [pd.notna] cannot test, an int
    too large for a float, and a label that occurs twice. *)
Definition unusable_record : gmap string pyobj :=
  <["ratios" := OFrame (frame_of_rows
       [ ("ROE", PNone); ("Gross_Margin", PFloat nan);
         ("Operating_Margin", PObj (Ok true) (Err ValueError));
         ("Current_Ratio", PObj (Err ValueError) (Err TypeError));
         ("PE_Ratio", PInt (2 ^ 1024));
         ("Debt_to_Equity", PFloat 9); ("Debt_to_Equity", PFloat 9) ])]>
  (<["growth_rates" := ODict {[ "Total_Revenue_CAGR" := PNone ]}]> ∅).

(** ** Calling a method twice *)

(** Calling [m] on [self], then again on the object the first call
    leaves: both calls return the same value and the object is unchanged. *)
Definition same_twice {A} (m : M A) (self : Generator) : Prop :=
  ∃ v, m self = (Returns v, self) ∧ m (m self).2 = (Returns v, self).

(** ** Openings of the messages *)

(** The first eight characters of a message: enough to tell the messages
    of different rules, and the fallback statements, apart whatever
    numbers they show. *)
Definition opening (s : string) : string := String.substring 0 8 s.

(** The openings of the messages of the bull rules, rule by rule. *)
Definition bull_openings : list (list string) :=
  [ ["Strong p"]; ["Healthy "]; ["Strong o"]; ["Solid li"]; ["Conserva"];
    ["Consiste"]; ["Excellen"] ].

(** The openings of the messages of the bear rules, rule by rule; rules 3
    and 6 have two wordings. *)
Definition bear_openings : list (list string) :=
  [ ["Premium "]; ["High lev"]; ["Revenue "; "Slowing "]; ["Thin mar"];
    ["Liquidit"]; ["Negative"; "Low retu"] ].

(** ** What a lookup reads from a cell *)

(** [float(val) if pd.notna(val) else default] on one cell, inside the
    accessor's [try]: the cell's number when the cell can be used, and
    [default] when the cell is missing or when testing or converting it
    raises. *)
Definition cell_value (v : pyval) (default : option float) : option float :=
  match pd_notna v, py_float v with
  | Ok true, Ok x => Some x
  | _, _ => default
  end.

(** ** More sample records *)

(** A record whose growth rates come as a table, not as a dict. *)
Definition tabular_growth_record : gmap string pyobj :=
  <["growth_rates" := OFrame (frame_of_columns
       [ ("Total_Revenue_CAGR", PFloat 0.25) ])]> ∅.

(** A record whose numbers are all the text [nan]: [pd.notna] accepts the
    text and [float] turns it into a NaN. *)
Definition nan_record : gmap string pyobj :=
  <["ratios" := OFrame (frame_of_rows
       [ ("ROE", PObj (Ok true) (Ok nan));
         ("Gross_Margin", PObj (Ok true) (Ok nan));
         ("Operating_Margin", PObj (Ok true) (Ok nan));
         ("Current_Ratio", PObj (Ok true) (Ok nan));
         ("Debt_to_Equity", PObj (Ok true) (Ok nan));
         ("PE_Ratio", PObj (Ok true) (Ok nan));
         ("Current_Price", PObj (Ok true) (Ok nan));
         ("Net_Income", PObj (Ok true) (Ok nan));
         ("Operating_Cash_Flow", PObj (Ok true) (Ok nan)) ])]>
  (<["growth_rates" :=
       ODict {[ "Total_Revenue_CAGR" := PObj (Ok true) (Ok nan) ]}]> ∅).

(** The strong record under another ticker, with other market data. *)
Definition renamed_record : gmap string pyobj :=
  <["ticker" := OStr "EMCA"]> (<["market_data" := OOther]> strong_record).

(** ** Comparing risk levels *)

(** The three levels in order of risk: LOW, MODERATE, HIGH. *)
Definition level_rank (level : string) : nat :=
  if String.eqb level "LOW" then 0
  else if String.eqb level "MODERATE" then 1
  else 2.

(** ** The page *)

(** [flag.startswith("‚úÖ")]: the test by which
    [render_investment_summary_tab] tells the success message, shown in
    green, from a warning. *)
Definition flag_is_success (flag : string) : bool :=
  String.prefix "‚úÖ" flag.

(** * Method calls *)

Ltac msimpl :=
  cbv beta iota delta [mbind M_bind mret M_ret eval attr try_except and_ or_].

Ltac crunch := repeat (case_match; msimpl; simpl in *; simplify_eq).

(** The [try] blocks return or raise, and leave the object as it was. *)
Lemma _get_ratio_try_ends name d self :
  (∃ v, _get_ratio_try name d self = (Returns v, self))
  ∨ (∃ e, _get_ratio_try name d self = (Raises e, self)).
Proof. unfold _get_ratio_try. msimpl. crunch; eauto. Qed.

Lemma _get_growth_rate_try_ends name d self :
  (∃ v, _get_growth_rate_try name d self = (Returns v, self))
  ∨ (∃ e, _get_growth_rate_try name d self = (Raises e, self)).
Proof. unfold _get_growth_rate_try. msimpl. crunch; eauto. Qed.

(** The accessor returns what its [try] block returns, and [default] when
    the block raises. *)
Lemma _get_ratio_catches name d self :
  ∃ v, _get_ratio name d self = (Returns v, self)
       ∧ ((_get_ratio_try name d self).1 = Returns v
          ∨ (∃ e, (_get_ratio_try name d self).1 = Raises e) ∧ v = d).
Proof.
  unfold _get_ratio, try_except.
  destruct (_get_ratio_try_ends name d self) as [[v ->]|[e ->]]; eauto.
  exists d. eauto.
Qed.

Lemma _get_growth_rate_catches name d self :
  ∃ v, _get_growth_rate name d self = (Returns v, self)
       ∧ ((_get_growth_rate_try name d self).1 = Returns v
          ∨ (∃ e, (_get_growth_rate_try name d self).1 = Raises e) ∧ v = d).
Proof.
  unfold _get_growth_rate, try_except.
  destruct (_get_growth_rate_try_ends name d self) as [[v ->]|[e ->]]; eauto.
  exists d. eauto.
Qed.

Lemma _get_ratio_run name d self :
  _get_ratio name d self =
  (Returns (match ratio_value self name with Some x => Some x | None => d end),
   self).
Proof.
  unfold ratio_value, _get_ratio, _get_ratio_try. msimpl. crunch; auto.
  all: unfold float_if_notna, iloc0, of_default in *; crunch; done.
Qed.

Lemma _get_growth_rate_run name d self :
  _get_growth_rate name d self =
  (Returns (match growth_value self name with Some x => Some x | None => d end),
   self).
Proof.
  unfold growth_value, _get_growth_rate, _get_growth_rate_try. msimpl.
  destruct (growth_rates self) as [| |df|dict|]; simpl;
    [by destruct d|by destruct d| | |by destruct d].
  - destruct (df_getitem df name) as [[v|vs|fr]|e]; simpl;
      [|by destruct d|by destruct d|].
    + destruct v as [|x|n|b f]; simpl; [by destruct d|..]; crunch; done.
    + destruct d as [x|]; simpl; [|done].
      by destruct (is_nan x).
  - destruct (dict !! name) as [v|]; simpl.
    + destruct v as [|x|n|b f]; simpl; [by destruct d|..]; crunch; done.
    + destruct d as [x|]; simpl; [|done].
      by destruct (is_nan x).
Qed.

Lemma _get_ratio_None name self :
  _get_ratio name None self = (Returns (ratio_value self name), self).
Proof. rewrite _get_ratio_run. by destruct (ratio_value self name). Qed.

Lemma _get_growth_rate_None name self :
  _get_growth_rate name None self = (Returns (growth_value self name), self).
Proof. rewrite _get_growth_rate_run. by destruct (growth_value self name). Qed.

Lemma _get_ratio_Some name d self :
  _get_ratio name (Some d) self =
  (Returns (Some (default d (ratio_value self name))), self).
Proof. rewrite _get_ratio_run. by destruct (ratio_value self name). Qed.

Lemma _get_growth_rate_Some name d self :
  _get_growth_rate name (Some d) self =
  (Returns (Some (default d (growth_value self name))), self).
Proof. rewrite _get_growth_rate_run. by destruct (growth_value self name). Qed.

(** * Padding *)

Lemma pad_pass_disjoint fallback_points points :
  NoDup fallback_points →
  (∀ s, s ∈ fallback_points → s ∉ points) →
  pad_pass fallback_points points
  = points ++ take (3 - length points) fallback_points.
Proof.
  unfold pad_pass.
  induction fallback_points as [|f fs IH] in points |- *; intros Hnd Hdis.
  { by rewrite take_nil, app_nil_r. }
  apply NoDup_cons in Hnd as [Hf Hnd]. simpl.
  rewrite (bool_decide_eq_true_2 (f ∉ points)) by (apply Hdis; left). simpl.
  case_bool_decide as Hlen.
  - rewrite IH; [|done|].
    + rewrite length_app. simpl.
      replace (3 - length points) with (S (3 - (length points + 1))) by lia.
      by rewrite <- app_assoc.
    + intros s Hs [Hin|Hin%list_elem_of_singleton]%elem_of_app.
      * apply (Hdis s); [by right|done].
      * by subst.
  - rewrite IH; [|done|].
    + by replace (3 - length points) with 0 by lia.
    + intros s Hs. apply Hdis. by right.
Qed.

Lemma pad_run fuel fallback_points points self :
  NoDup fallback_points →
  length fallback_points = 3 →
  (∀ s, s ∈ fallback_points → s ∉ points) →
  ∃ padded,
    pad (S fuel) fallback_points points self = (Returns padded, self)
    ∧ take 3 padded = take 3 (points ++ fallback_points).
Proof.
  intros Hnd Hlen Hdis. unfold pad. simpl.
  case_bool_decide as Hshort.
  - rewrite pad_pass_disjoint by done.
    set (padded := points ++ _).
    assert (length padded = 3) as Hp.
    { unfold padded. rewrite length_app, length_take. lia. }
    exists padded. split.
    + destruct fuel; simpl; rewrite bool_decide_eq_false_2 by lia; done.
    + unfold padded. rewrite !take_app.
      rewrite take_take. f_equal. f_equal. lia.
  - exists points. split; [done|].
    rewrite take_app. replace (3 - length points) with 0 by lia.
    by rewrite take_0, app_nil_r.
Qed.

(** * Signal tables *)

Lemma append_when (v : option float) (fires : float → bool)
    (message : float → string) (points : list string) :
  match v with
  | Some x => if fires x then points ++ [message x] else points
  | None => points
  end = points ++ option_list (when v fires message).
Proof.
  destruct v as [x|]; simpl; [destruct (fires x)|]; simpl;
    by rewrite ?app_nil_r.
Qed.

Lemma append_when_branch (v : option float) (fires branch : float → bool)
    (message1 message2 : float → string) (points : list string) :
  match v with
  | Some x =>
      if fires x then
        if branch x then points ++ [message1 x] else points ++ [message2 x]
      else points
  | None => points
  end = points ++ option_list
          (when v fires (λ x, if branch x then message1 x else message2 x)).
Proof.
  destruct v as [x|]; simpl; [destruct (fires x), (branch x)|]; simpl;
    by rewrite ?app_nil_r.
Qed.

Lemma omap_id_cons (r : option string) (rs : list (option string)) :
  omap id (r :: rs) = option_list r ++ omap id rs.
Proof. by destruct r. Qed.

Lemma when_Some v fires message s :
  when v fires message = Some s → ∃ x, v = Some x ∧ fires x = true ∧ s = message x.
Proof. unfold when. intros. crunch. eauto. Qed.

Lemma singleton_sublist {A} (x : A) l : x ∈ l → sublist [x] l.
Proof.
  intros (l1 & l2 & ->)%list_elem_of_split.
  apply sublist_inserts_l. apply sublist_skip. apply sublist_nil_l.
Qed.

(** The messages of a rule list open with the openings allotted to the
    rules, in order. *)
Lemma openings_sublist (rules : list (option string)) (kss : list (list string)) :
  Forall2 (λ r ks, ∀ s, r = Some s → opening s ∈ ks) rules kss →
  sublist (opening <$> omap id rules) (concat kss).
Proof.
  induction 1 as [|r ks rules kss Hr _ IH]; [done|].
  rewrite omap_id_cons, fmap_app. simpl. apply sublist_app; [|done].
  destruct r as [s|]; simpl; [|apply sublist_nil_l].
  apply singleton_sublist. by apply Hr.
Qed.

Local Opaque format_f.

Ltac solve_opening :=
  let s := fresh "s" in let H := fresh "H" in
  intros s H;
  first [ apply when_Some in H as (? & _ & _ & ->) | idtac ];
  crunch; cbn; set_solver.

Lemma bull_rules_openings self :
  Forall2 (λ r ks, ∀ s, r = Some s → opening s ∈ ks) (bull_rules self) bull_openings.
Proof.
  unfold bull_rules, bull_openings.
  repeat (apply List.Forall2_cons; [solve_opening|]). apply List.Forall2_nil.
Qed.

Lemma bear_rules_openings self :
  Forall2 (λ r ks, ∀ s, r = Some s → opening s ∈ ks) (bear_rules self) bear_openings.
Proof.
  unfold bear_rules, bear_openings.
  repeat (apply List.Forall2_cons; [solve_opening|]). apply List.Forall2_nil.
Qed.

Lemma append_when_both (v w : option float) (fires : float → float → bool)
    (message : string) (points : list string) :
  match v, w with
  | Some x, Some y => if fires x y then points ++ [message] else points
  | _, _ => points
  end = points ++ option_list
          match v, w with
          | Some x, Some y => if fires x y then Some message else None
          | _, _ => None
          end.
Proof.
  destruct v as [x|], w as [y|]; simpl; try destruct (fires x y); simpl;
    by rewrite ?app_nil_r.
Qed.

Lemma bull_points_NoDup self :
  NoDup (bull_signals self ++ bull_fallback_points).
Proof.
  apply (NoDup_fmap_1 opening).
  apply sublist_NoDup
    with (concat bull_openings ++ (opening <$> bull_fallback_points)).
  { apply (bool_decide_unpack _). vm_compute. exact I. }
  rewrite fmap_app. apply sublist_app; [|done].
  apply openings_sublist, bull_rules_openings.
Qed.

Lemma bear_points_NoDup self :
  NoDup (bear_signals self ++ bear_fallback_points).
Proof.
  apply (NoDup_fmap_1 opening).
  apply sublist_NoDup
    with (concat bear_openings ++ (opening <$> bear_fallback_points)).
  { apply (bool_decide_unpack _). vm_compute. exact I. }
  rewrite fmap_app. apply sublist_app; [|done].
  apply openings_sublist, bear_rules_openings.
Qed.

Local Opaque _get_ratio _get_growth_rate pad.

Lemma bind_returns {A B} (m : M A) (k : A → M B) self a rhs :
  m self = (Returns a, self) → k a self = rhs → (x ← m; k x) self = rhs.
Proof. intros H <-. unfold mbind, M_bind. by rewrite H. Qed.

(** Run the accessor call at the head of a method body. *)
Ltac call :=
  first
    [ refine (bind_returns _ _ _ _ _ (_get_ratio_None _ _) _)
    | refine (bind_returns _ _ _ _ _ (_get_growth_rate_None _ _) _)
    | refine (bind_returns _ _ _ _ _ (_get_ratio_Some _ _ _) _)
    | refine (bind_returns _ _ _ _ _ (_get_growth_rate_Some _ _ _) _) ].

(** Replace the points handed to [pad] by the convertible list of [H]. *)
Ltac use_pad H :=
  lazymatch type of H with
  | ?lhs = _ =>
      lazymatch goal with
      | |- context [pad ?fuel ?fb ?l ?s] => change (pad fuel fb l s) with lhs
      end
  end;
  rewrite H.

(** Name the list a [let] binds, and turn the sequential [if] that built
    it into an append of the rule's outcome. *)
Ltac let_step :=
  lazymatch goal with
  | |- (let x := ?a in @?body x) ?self = ?rhs =>
      let points := fresh "points" in
      let E := fresh "E" in
      pose (points := a);
      change (body points self = rhs);
      pose proof (eq_refl : points = a) as E; clearbody points;
      rewrite ?append_when, ?append_when_branch, ?append_when_both in E;
      cbv beta
  end.

Lemma generate_bull_case_run fuel self :
  generate_bull_case (S fuel) self
  = (Returns (take 3 (bull_signals self ++ bull_fallback_points)), self).
Proof.
  pose proof (bull_points_NoDup self) as (_ & Hdis & Hnd)%NoDup_app.
  destruct (pad_run fuel bull_fallback_points (bull_signals self) self)
    as (padded & Hpad & Htake); [done|done|naive_solver|].
  unfold bull_signals, bull_rules in Hpad. rewrite !omap_id_cons in Hpad.
  simpl in Hpad. rewrite !app_assoc, app_nil_r in Hpad.
  cbv delta [generate_bull_case]. cbv beta.
  repeat first [let_step | call].
  subst. rewrite app_nil_l.
  msimpl. use_pad Hpad. by rewrite Htake.
Qed.

Lemma generate_bear_case_run fuel self :
  generate_bear_case (S fuel) self
  = (Returns (take 3 (bear_signals self ++ bear_fallback_points)), self).
Proof.
  pose proof (bear_points_NoDup self) as (_ & Hdis & Hnd)%NoDup_app.
  destruct (pad_run fuel bear_fallback_points (bear_signals self) self)
    as (padded & Hpad & Htake); [done|done|naive_solver|].
  unfold bear_signals, bear_rules in Hpad. rewrite !omap_id_cons in Hpad.
  simpl in Hpad. rewrite !app_assoc, app_nil_r in Hpad.
  cbv delta [generate_bear_case]. cbv beta.
  repeat first [let_step | call].
  subst. rewrite app_nil_l.
  msimpl. use_pad Hpad. by rewrite Htake.
Qed.

Lemma detect_red_flags_run self :
  detect_red_flags self
  = (Returns match triggered_flags self with
             | [] => [no_red_flags]
             | flags => flags
             end, self).
Proof.
  assert (triggered_flags self
          = fold_left (λ points r, points ++ option_list r)
              (red_flag_checks self) []) as ->.
  { unfold triggered_flags, red_flag_checks. rewrite !omap_id_cons. simpl.
    by rewrite app_nil_r, !app_assoc. }
  cbv delta [detect_red_flags]. cbv beta.
  repeat first [let_step | call].
  subst.
  set (flags := fold_left _ _ _).
  lazymatch goal with
  | |- mret (match ?l with _ => _ end) _ = _ => change l with flags
  end.
  by destruct flags.
Qed.

Lemma calculate_valuation_range_run self :
  calculate_valuation_range self
  = (Returns match ratio_value self "Current_Price" with
             | Some price =>
                 if (price <=? 0)%float
                 then valuation_range (PInt 0) (PInt 0) (PInt 0)
                 else valuation_range (PFloat (price * 0.80)%float)
                        (PFloat price) (PFloat (price * 1.25)%float)
             | None => valuation_range (PInt 0) (PInt 0) (PInt 0)
             end, self).
Proof.
  cbv delta [calculate_valuation_range]. call.
  destruct (ratio_value self "Current_Price") as [price|]; [|done].
  by destruct (price <=? 0)%float.
Qed.

Lemma get_key_metrics_run self :
  get_key_metrics self
  = (Returns (<["Current Price" := ratio_value self "Current_Price"]>
              (<["P/E Ratio" := ratio_value self "PE_Ratio"]>
              (<["Market Cap" := ratio_value self "Market_Cap"]>
              (<["Revenue" := ratio_value self "Total_Revenue"]>
              (<["Net Income" := ratio_value self "Net_Income"]>
              (<["ROE" := ratio_value self "ROE"]>
              (<["Debt/Equity" := ratio_value self "Debt_to_Equity"]>
              (<["Current Ratio" := ratio_value self "Current_Ratio"]> ∅)))))))),
     self).
Proof. cbv delta [get_key_metrics]. repeat call. reflexivity. Qed.

Lemma eval_Ok {A} (a : A) self : eval (Ok a) self = (Returns a, self).
Proof. reflexivity. Qed.

Lemma and_returns (a b : M bool) x y self :
  a self = (Returns x, self) → b self = (Returns y, self) →
  and_ a b self = (Returns (x && y), self).
Proof.
  intros Ha Hb. unfold and_. msimpl. rewrite Ha.
  destruct x; [by rewrite Hb|done].
Qed.

Lemma or_returns (a b : M bool) x y self :
  a self = (Returns x, self) → b self = (Returns y, self) →
  or_ a b self = (Returns (x || y), self).
Proof.
  intros Ha Hb. unfold or_. msimpl. rewrite Ha.
  destruct x; [done|by rewrite Hb].
Qed.

(** Run a block of a method body that is known to return [v]. *)
Ltac block v :=
  refine (bind_returns _ _ _ v _ _ _);
  [ msimpl; cbn [py_ge py_le py_lt py_gt];
    unfold financial_health, liquidity;
    repeat (case_match; cbn [orb andb] in *; simplify_eq); reflexivity |].

Lemma valuation_branch (pe_ratio : float) (risks : gmap string string) :
  (if (pe_ratio <? 20)%float then <["Valuation" := "LOW"]> risks
   else if (40 <? pe_ratio)%float then <["Valuation" := "HIGH"]> risks
   else <["Valuation" := "MODERATE"]> risks)
  = <["Valuation" := valuation pe_ratio]> risks.
Proof. unfold valuation. by repeat case_match. Qed.

Lemma growth_branch (rev_cagr : float) (risks : gmap string string) :
  (if (0.10 <? rev_cagr)%float then <["Growth" := "LOW"]> risks
   else if (rev_cagr <? 0)%float then <["Growth" := "HIGH"]> risks
   else <["Growth" := "MODERATE"]> risks)
  = <["Growth" := growth rev_cagr]> risks.
Proof. unfold growth. by repeat case_match. Qed.

Lemma profitability_branch (roe op_margin : float)
    (risks : gmap string string) :
  (if (0.15 <? roe)%float && (0.15 <? op_margin)%float
   then <["Profitability" := "LOW"]> risks
   else if (roe <? 0)%float || (op_margin <? 0.05)%float
   then <["Profitability" := "HIGH"]> risks
   else <["Profitability" := "MODERATE"]> risks)
  = <["Profitability" := profitability roe op_margin]> risks.
Proof. unfold profitability. by repeat case_match. Qed.

Lemma assess_risks_run self :
  assess_risks self = (Returns (risk_table self), self).
Proof.
  cbv delta [assess_risks risk_table]. cbv beta.
  let_step. call. call.
  refine (bind_returns _ _ _ _ _ (and_returns _ _ _ _ _ eq_refl eq_refl) _).
  block (<["Financial Health" :=
             financial_health
               (default 1.0%float (ratio_value self "Current_Ratio"))
               (default 1.0%float (ratio_value self "Debt_to_Equity"))]> points).
  call. let_step. cbv beta iota in E0. rewrite valuation_branch in E0.
  call. let_step. cbv beta iota in E1. rewrite growth_branch in E1.
  refine (bind_returns _ _ _ _ _ (eval_Ok _ _) _).
  block (<["Liquidity" :=
             liquidity (default 1.0%float (ratio_value self "Current_Ratio"))]>
           points1).
  call. call. let_step. cbv beta iota in E2. rewrite profitability_branch in E2.
  subst. reflexivity.
Qed.

(** * Facts used by the claims *)

(** A float above zero is not at most zero (no NaN is above zero). *)
Lemma positive_not_le_zero (x : float) :
  (0 <? x)%float = true → (x <=? 0)%float = false.
Proof.
  rewrite ltb_spec, leb_spec.
  change (Prim2SF 0) with (S754_zero false).
  unfold SFltb, SFleb. destruct (Prim2SF x) as [s|s| |s m e]; simpl; try done.
  all: by destruct s.
Qed.

(** * The claims *)

(** C1.  No exception escapes a judgment call, whatever the record holds:
    each accessor returns what its [try] block returns and, when that
    block raises, the caller's [default]; each of the six judgment methods
    returns a value (the padding loop needs one pass, so any fuel above
    zero is enough) and leaves the generator as it was. *)
Theorem no_exception_escapes (self : Generator) (fuel : nat) :
  (∀ name default,
     ∃ v, _get_ratio name default self = (Returns v, self)
          ∧ ((_get_ratio_try name default self).1 = Returns v
             ∨ (∃ e, (_get_ratio_try name default self).1 = Raises e)
               ∧ v = default))
  ∧ (∀ name default,
       ∃ v, _get_growth_rate name default self = (Returns v, self)
            ∧ ((_get_growth_rate_try name default self).1 = Returns v
               ∨ (∃ e, (_get_growth_rate_try name default self).1 = Raises e)
                 ∧ v = default))
  ∧ (∃ points, generate_bull_case (S fuel) self = (Returns points, self))
  ∧ (∃ points, generate_bear_case (S fuel) self = (Returns points, self))
  ∧ (∃ risks, assess_risks self = (Returns risks, self))
  ∧ (∃ flags, detect_red_flags self = (Returns flags, self))
  ∧ (∃ range, calculate_valuation_range self = (Returns range, self))
  ∧ (∃ metrics, get_key_metrics self = (Returns metrics, self)).
Proof.
  split_and!.
  - intros name d. apply _get_ratio_catches.
  - intros name d. apply _get_growth_rate_catches.
  - eexists. apply generate_bull_case_run.
  - eexists. apply generate_bear_case_run.
  - eexists. apply assess_risks_run.
  - eexists. apply detect_red_flags_run.
  - eexists. apply calculate_valuation_range_run.
  - eexists. apply get_key_metrics_run.
Qed.

Lemma same_twice_intro {A} (m : M A) self v :
  m self = (Returns v, self) → same_twice m self.
Proof. intros H. exists v. by rewrite H. Qed.

(** C9.  Every judgment method is a pure function of the record: called
    on a generator it returns a value and leaves the generator unchanged,
    and called again on the generator it left it returns the same value. *)
Theorem judgments_are_pure (self : Generator) (fuel : nat) :
  same_twice (generate_bull_case (S fuel)) self
  ∧ same_twice (generate_bear_case (S fuel)) self
  ∧ same_twice assess_risks self
  ∧ same_twice detect_red_flags self
  ∧ same_twice calculate_valuation_range self
  ∧ same_twice get_key_metrics self.
Proof.
  split_and!; eapply same_twice_intro.
  - apply generate_bull_case_run.
  - apply generate_bear_case_run.
  - apply assess_risks_run.
  - apply detect_red_flags_run.
  - apply calculate_valuation_range_run.
  - apply get_key_metrics_run.
Qed.

(** C2.  For every record the bull case and the bear case have exactly
    three points, without duplicates: the messages of the rules that fire,
    in rule order, then the fallback statements in their order, cut to
    three. *)
Theorem bull_and_bear_have_three_points (self : Generator) (fuel : nat) :
  ∃ bull bear,
    generate_bull_case (S fuel) self = (Returns bull, self)
    ∧ generate_bear_case (S fuel) self = (Returns bear, self)
    ∧ length bull = 3 ∧ NoDup bull
    ∧ bull = take 3 (bull_signals self ++ bull_fallback_points)
    ∧ length bear = 3 ∧ NoDup bear
    ∧ bear = take 3 (bear_signals self ++ bear_fallback_points).
Proof.
  eexists _, _. split; [apply generate_bull_case_run|].
  split; [apply generate_bear_case_run|].
  split_and!; try done.
  - rewrite length_take, length_app.
    change (length bull_fallback_points) with 3. lia.
  - eapply sublist_NoDup; [apply bull_points_NoDup|apply sublist_take].
  - rewrite length_take, length_app.
    change (length bear_fallback_points) with 3. lia.
  - eapply sublist_NoDup; [apply bear_points_NoDup|apply sublist_take].
Qed.

Lemma levels_financial_health cr de :
  financial_health cr de ∈ ["LOW"; "MODERATE"; "HIGH"].
Proof. unfold financial_health. repeat case_match; set_solver. Qed.
Lemma levels_valuation pe : valuation pe ∈ ["LOW"; "MODERATE"; "HIGH"].
Proof. unfold valuation. repeat case_match; set_solver. Qed.
Lemma levels_growth g : growth g ∈ ["LOW"; "MODERATE"; "HIGH"].
Proof. unfold growth. repeat case_match; set_solver. Qed.
Lemma levels_liquidity cr : liquidity cr ∈ ["LOW"; "MODERATE"; "HIGH"].
Proof. unfold liquidity. repeat case_match; set_solver. Qed.
Lemma levels_profitability roe om :
  profitability roe om ∈ ["LOW"; "MODERATE"; "HIGH"].
Proof. unfold profitability. repeat case_match; set_solver. Qed.

(** C3.  For every record the risk map has exactly the five category
    keys, each rated LOW, MODERATE or HIGH; it is the table of the
    thresholds applied to the inputs, a missing input being replaced by its
    default (Current_Ratio 1.0, Debt_to_Equity 1.0, PE_Ratio 20.0,
    Total_Revenue_CAGR 0.05, ROE 0.10, Operating_Margin 0.10). *)
Theorem risk_map_is_total (self : Generator) :
  ∃ risks,
    assess_risks self = (Returns risks, self)
    ∧ dom risks
      = {[ "Financial Health"; "Valuation"; "Growth"; "Liquidity";
           "Profitability" ]}
    ∧ map_Forall (λ _ level, level ∈ ["LOW"; "MODERATE"; "HIGH"]) risks
    ∧ risks = risk_table self.
Proof.
  exists (risk_table self). split; [apply assess_risks_run|].
  split_and!; [| |done].
  - unfold risk_table. cbv zeta. rewrite !dom_insert_L, dom_empty_L.
    set_solver.
  - unfold risk_table. cbv zeta.
    repeat apply map_Forall_insert_2;
      [ apply levels_profitability | apply levels_liquidity
      | apply levels_growth | apply levels_valuation
      | apply levels_financial_health | apply map_Forall_empty ].
Qed.

Lemma when_None v fires message :
  (∀ x, v = Some x → fires x = false) → when v fires message = None.
Proof. intros H. destruct v as [x|]; [|done]. simpl. by rewrite (H x). Qed.

(** C4.  When all seven bull signals fire, the bull case is exactly the
    messages of rules 1, 2 and 3 (ROE, gross margin, operating margin), in
    that order. *)
Theorem bull_case_keeps_first_three_rules (self : Generator) (fuel : nat)
    (roe gross_margin op_margin current_ratio de_ratio rev_cagr
       net_income ocf : float) :
  ratio_value self "ROE" = Some roe → (0.15 <? roe)%float = true →
  ratio_value self "Gross_Margin" = Some gross_margin →
  (0.30 <? gross_margin)%float = true →
  ratio_value self "Operating_Margin" = Some op_margin →
  (0.15 <? op_margin)%float = true →
  ratio_value self "Current_Ratio" = Some current_ratio →
  (1.5 <? current_ratio)%float = true →
  ratio_value self "Debt_to_Equity" = Some de_ratio →
  (de_ratio <? 0.5)%float = true →
  growth_value self "Total_Revenue_CAGR" = Some rev_cagr →
  (0.10 <? rev_cagr)%float = true →
  ratio_value self "Net_Income" = Some net_income →
  ratio_value self "Operating_Cash_Flow" = Some ocf →
  (net_income <? ocf)%float = true → (0 <? net_income)%float = true →
  generate_bull_case (S fuel) self
  = (Returns
       [ "Strong profitability: ROE of " +:+ format_f 1 (roe * 100)%float
         +:+ "%, indicating efficient use of shareholder capital";
         "Healthy margins: Gross margin of "
         +:+ format_f 1 (gross_margin * 100)%float
         +:+ "%, demonstrating pricing power";
         "Strong operating efficiency: Operating margin of "
         +:+ format_f 1 (op_margin * 100)%float +:+ "%" ],
     self).
Proof.
  intros Hroe Hroe' Hgm Hgm' Hom Hom' _ _ _ _ _ _ _ _ _ _.
  rewrite generate_bull_case_run. unfold bull_signals, bull_rules.
  rewrite Hroe, Hgm, Hom. unfold when at 1 2 3. rewrite Hroe', Hgm', Hom'.
  reflexivity.
Qed.

Lemma bull_case_keeps_first_three_rules_witness :
  generate_bull_case 1 (__init__ strong_record)
  = (Returns
       [ "Strong profitability: ROE of 20.0%, indicating efficient use of shareholder capital";
         "Healthy margins: Gross margin of 45.0%, demonstrating pricing power";
         "Strong operating efficiency: Operating margin of 25.0%" ],
     __init__ strong_record).
Proof.
  refine (eq_trans
    (bull_case_keeps_first_three_rules (__init__ strong_record) 0
       0.2 0.45 0.25 2.1 0.3 0.12 500 650 _ _ _ _ _ _ _ _ _ _ _ _ _ _ _ _) _);
    vm_compute; reflexivity.
Defined.

(** C5.  When no bull signal fires (each rule's input is absent or fails
    its condition), the bull case is the three fallback statements in
    their fixed order. *)
Theorem bull_case_without_signals (self : Generator) (fuel : nat) :
  (∀ roe, ratio_value self "ROE" = Some roe → (0.15 <? roe)%float = false) →
  (∀ gross_margin, ratio_value self "Gross_Margin" = Some gross_margin →
     (0.30 <? gross_margin)%float = false) →
  (∀ op_margin, ratio_value self "Operating_Margin" = Some op_margin →
     (0.15 <? op_margin)%float = false) →
  (∀ current_ratio, ratio_value self "Current_Ratio" = Some current_ratio →
     (1.5 <? current_ratio)%float = false) →
  (∀ de_ratio, ratio_value self "Debt_to_Equity" = Some de_ratio →
     (de_ratio <? 0.5)%float = false) →
  (∀ rev_cagr, growth_value self "Total_Revenue_CAGR" = Some rev_cagr →
     (0.10 <? rev_cagr)%float = false) →
  (∀ net_income ocf,
     ratio_value self "Net_Income" = Some net_income →
     ratio_value self "Operating_Cash_Flow" = Some ocf →
     (net_income <? ocf)%float && (0 <? net_income)%float = false) →
  generate_bull_case (S fuel) self
  = (Returns
       [ "Established market position with brand recognition";
         "Diversified revenue streams reduce concentration risk";
         "Experienced management team with track record" ],
     self).
Proof.
  intros H1 H2 H3 H4 H5 H6 H7.
  rewrite generate_bull_case_run. unfold bull_signals, bull_rules.
  rewrite !when_None by done.
  destruct (ratio_value self "Net_Income") as [net_income|]; [|done].
  destruct (ratio_value self "Operating_Cash_Flow") as [ocf|]; [|done].
  by rewrite (H7 net_income ocf).
Qed.

Lemma bull_case_without_signals_witness :
  generate_bull_case 1 (__init__ empty_record)
  = (Returns bull_fallback_points, __init__ empty_record).
Proof.
  apply (bull_case_without_signals (__init__ empty_record) 0);
    intros; discriminate.
Defined.

(** C6.  The valuation range: a price that is present and above zero
    gives bear = price * 0.80, base = price, bull = price * 1.25; a price
    that is absent, or at most zero, gives three zeros; the percentages
    are always -20 and 25.  At price 100 the three prices are 80, 100 and
    125. *)
Theorem valuation_range_by_price (self : Generator) :
  (∀ price,
     ratio_value self "Current_Price" = Some price →
     (0 <? price)%float = true →
     calculate_valuation_range self
     = (Returns (valuation_range (PFloat (price * 0.80)%float) (PFloat price)
                   (PFloat (price * 1.25)%float)), self))
  ∧ (∀ price,
       ratio_value self "Current_Price" = Some price →
       (price <=? 0)%float = true →
       calculate_valuation_range self
       = (Returns (valuation_range (PInt 0) (PInt 0) (PInt 0)), self))
  ∧ (ratio_value self "Current_Price" = None →
     calculate_valuation_range self
     = (Returns (valuation_range (PInt 0) (PInt 0) (PInt 0)), self))
  ∧ (∀ bear base bull,
       valuation_range bear base bull !! "bear_case" = Some bear
       ∧ valuation_range bear base bull !! "base_case" = Some base
       ∧ valuation_range bear base bull !! "bull_case" = Some bull
       ∧ valuation_range bear base bull !! "bear_pct" = Some (PInt (-20))
       ∧ valuation_range bear base bull !! "bull_pct" = Some (PInt 25))
  ∧ (100 * 0.80 = 80 ∧ 100 * 1.25 = 125)%float.
Proof.
  split_and!.
  - intros price Hprice Hpos. rewrite calculate_valuation_range_run, Hprice.
    by rewrite (positive_not_le_zero price Hpos).
  - intros price Hprice Hle. by rewrite calculate_valuation_range_run, Hprice, Hle.
  - intros Hprice. by rewrite calculate_valuation_range_run, Hprice.
  - intros bear base bull. unfold valuation_range. by simplify_map_eq.
  - by vm_compute.
  - by vm_compute.
Qed.

Lemma valuation_range_by_price_witness :
  calculate_valuation_range (__init__ strong_record)
  = (Returns (valuation_range (PFloat (100 * 0.80)%float) (PFloat 100)
                (PFloat (100 * 1.25)%float)),
     __init__ strong_record)
  ∧ calculate_valuation_range (__init__ distressed_record)
    = (Returns (valuation_range (PInt 0) (PInt 0) (PInt 0)),
       __init__ distressed_record)
  ∧ calculate_valuation_range (__init__ empty_record)
    = (Returns (valuation_range (PInt 0) (PInt 0) (PInt 0)),
       __init__ empty_record).
Proof.
  split_and!.
  - apply (proj1 (valuation_range_by_price (__init__ strong_record))
             100%float); vm_compute; reflexivity.
  - apply (proj1 (proj2 (valuation_range_by_price (__init__ distressed_record)))
             0%float); vm_compute; reflexivity.
  - apply (proj1 (proj2 (proj2
             (valuation_range_by_price (__init__ empty_record)))));
      vm_compute; reflexivity.
Defined.

Lemma length_omap_id {A} (l : list (option A)) :
  length (omap id l) = length (filter is_Some l).
Proof.
  induction l as [|[x|] l IH]; [done|..].
  - rewrite filter_cons_True by done.
    change (omap id (Some x :: l)) with (x :: omap id l). simpl. by f_equal.
  - rewrite filter_cons_False by (by intros [? ?]). done.
Qed.

(** C7.  The red-flag list is never empty: it is the success sentinel
    alone when no check triggers, and otherwise the warnings of all the
    checks that trigger, one each, however many. *)
Theorem red_flags_never_empty (self : Generator) :
  ∃ flags,
    detect_red_flags self = (Returns flags, self)
    ∧ flags ≠ []
    ∧ flags = (if decide (triggered_flags self = [])
               then [no_red_flags] else triggered_flags self)
    ∧ length (triggered_flags self)
      = length (filter is_Some (red_flag_checks self)).
Proof.
  eexists. split; [apply detect_red_flags_run|].
  split_and!.
  - by destruct (triggered_flags self).
  - by destruct (triggered_flags self).
  - apply length_omap_id.
Qed.

Lemma bull_rules_openings_boundary self :
  ratio_value self "Debt_to_Equity" = Some 0.5%float →
  Forall2 (λ r ks, ∀ s, r = Some s → opening s ∈ ks) (bull_rules self)
    [ ["Strong p"]; ["Healthy "]; ["Strong o"]; ["Solid li"]; [];
      ["Consiste"]; ["Excellen"] ].
Proof.
  intros Hde. unfold bull_rules. rewrite Hde.
  do 4 (apply List.Forall2_cons; [solve_opening|]).
  apply List.Forall2_cons; [by intros s [=]|].
  repeat (apply List.Forall2_cons; [solve_opening|]). apply List.Forall2_nil.
Qed.

Lemma bear_rules_openings_boundary self :
  ratio_value self "Debt_to_Equity" = Some 0.5%float →
  Forall2 (λ r ks, ∀ s, r = Some s → opening s ∈ ks) (bear_rules self)
    [ ["Premium "]; []; ["Revenue "; "Slowing "]; ["Thin mar"];
      ["Liquidit"]; ["Negative"; "Low retu"] ].
Proof.
  intros Hde. unfold bear_rules. rewrite Hde.
  apply List.Forall2_cons; [solve_opening|].
  apply List.Forall2_cons; [by intros s [=]|].
  repeat (apply List.Forall2_cons; [solve_opening|]). apply List.Forall2_nil.
Qed.

(** A message whose opening is none of the openings the rules and the
    fallback list can produce is not among the points returned. *)
Lemma not_in_points (rules : list (option string)) kss fallback_points s n :
  Forall2 (λ r ks, ∀ s, r = Some s → opening s ∈ ks) rules kss →
  opening s ∉ concat kss ++ (opening <$> fallback_points) →
  s ∉ take n (omap id rules ++ fallback_points).
Proof.
  intros Hrules Hs Hin%subseteq_take. apply Hs.
  apply (list_elem_of_fmap_2 opening) in Hin. rewrite fmap_app in Hin.
  eapply elem_of_sublist; [done|].
  apply sublist_app; [|done]. by apply openings_sublist.
Qed.

(** C8.  At Debt_to_Equity exactly 0.5 neither leverage rule fires
    (the comparisons are strict), and neither leverage message is among
    the points returned. *)
Theorem leverage_boundary (self : Generator) (fuel : nat) :
  ratio_value self "Debt_to_Equity" = Some 0.5%float →
  ∃ bull bear,
    generate_bull_case (S fuel) self = (Returns bull, self)
    ∧ generate_bear_case (S fuel) self = (Returns bear, self)
    ∧ bull_rules self !! 4%nat = Some None
    ∧ bear_rules self !! 1%nat = Some None
    ∧ (∀ de, "Conservative balance sheet: Debt/Equity of " +:+ format_f 2 de
             +:+ "x indicates low financial risk" ∉ bull)
    ∧ (∀ de, "High leverage risk: Debt/Equity of " +:+ format_f 2 de
             +:+ "x increases financial vulnerability" ∉ bear).
Proof.
  intros Hde. eexists _, _.
  split; [apply generate_bull_case_run|].
  split; [apply generate_bear_case_run|].
  split_and!.
  - unfold bull_rules. by rewrite Hde.
  - unfold bear_rules. by rewrite Hde.
  - intros de. eapply not_in_points.
    + by apply bull_rules_openings_boundary.
    + apply (bool_decide_unpack _). vm_compute. exact I.
  - intros de. eapply not_in_points.
    + by apply bear_rules_openings_boundary.
    + apply (bool_decide_unpack _). vm_compute. exact I.
Qed.

Lemma leverage_boundary_witness :
  ∃ bull bear,
    generate_bull_case 1 (__init__ boundary_record)
    = (Returns bull, __init__ boundary_record)
    ∧ generate_bear_case 1 (__init__ boundary_record)
      = (Returns bear, __init__ boundary_record)
    ∧ bull_rules (__init__ boundary_record) !! 4%nat = Some None
    ∧ bear_rules (__init__ boundary_record) !! 1%nat = Some None
    ∧ (∀ de, "Conservative balance sheet: Debt/Equity of " +:+ format_f 2 de
             +:+ "x indicates low financial risk" ∉ bull)
    ∧ (∀ de, "High leverage risk: Debt/Equity of " +:+ format_f 2 de
             +:+ "x increases financial vulnerability" ∉ bear).
Proof.
  apply (leverage_boundary (__init__ boundary_record) 0).
  vm_compute. reflexivity.
Defined.

(** C10.  An accessor called with a default that is not [None] never
    returns [None]; so the values the [is not None] guards of
    [assess_risks] test are always present, and the Valuation, Growth and
    Profitability ratings are the ones the thresholds give on them, never
    the fallback of an [else] branch. *)
Theorem defaulted_lookups_are_never_None (self : Generator) :
  (∀ name d, ∃ x, _get_ratio name (Some d) self = (Returns (Some x), self))
  ∧ (∀ name d,
       ∃ x, _get_growth_rate name (Some d) self = (Returns (Some x), self))
  ∧ ∃ pe_ratio rev_cagr roe op_margin risks,
      _get_ratio "PE_Ratio" (Some 20.0%float) self
      = (Returns (Some pe_ratio), self)
      ∧ _get_growth_rate "Total_Revenue_CAGR" (Some 0.05%float) self
        = (Returns (Some rev_cagr), self)
      ∧ _get_ratio "ROE" (Some 0.10%float) self = (Returns (Some roe), self)
      ∧ _get_ratio "Operating_Margin" (Some 0.10%float) self
        = (Returns (Some op_margin), self)
      ∧ assess_risks self = (Returns risks, self)
      ∧ risks !! "Valuation" = Some (valuation pe_ratio)
      ∧ risks !! "Growth" = Some (growth rev_cagr)
      ∧ risks !! "Profitability" = Some (profitability roe op_margin).
Proof.
  split_and!.
  - intros name d. eexists. apply _get_ratio_Some.
  - intros name d. eexists. apply _get_growth_rate_Some.
  - eexists _, _, _, _, _.
    split; [apply _get_ratio_Some|].
    split; [apply _get_growth_rate_Some|].
    split; [apply _get_ratio_Some|].
    split; [apply _get_ratio_Some|].
    split; [apply assess_risks_run|].
    unfold risk_table. cbv zeta. by simplify_map_eq.
Qed.

(** * The sample records, run *)

(** The empty record: fallback points only, every risk MODERATE, the
    success sentinel, a range of zeros. *)
Example empty_record_bull :
  (generate_bull_case 1 (__init__ empty_record)).1
  = Returns bull_fallback_points.
Proof. vm_compute. reflexivity. Qed.

Example empty_record_bear :
  (generate_bear_case 1 (__init__ empty_record)).1
  = Returns bear_fallback_points.
Proof. vm_compute. reflexivity. Qed.

Example empty_record_risks :
  match (assess_risks (__init__ empty_record)).1 with
  | Returns risks =>
      (λ category, risks !! category)
        <$> [ "Financial Health"; "Valuation"; "Growth"; "Liquidity";
              "Profitability" ]
  | _ => []
  end
  = [ Some "MODERATE"; Some "MODERATE"; Some "MODERATE"; Some "MODERATE";
      Some "MODERATE" ].
Proof. vm_compute. reflexivity. Qed.

Example empty_record_flags :
  (detect_red_flags (__init__ empty_record)).1 = Returns [no_red_flags].
Proof. vm_compute. reflexivity. Qed.

(** Without fuel the padding loop of the model has not finished. *)
Example empty_record_no_fuel :
  (generate_bull_case 0 (__init__ empty_record)).1 = Diverges.
Proof. vm_compute. reflexivity. Qed.

(** The distressed record: six bear rules fire and three are kept, all
    five red flags are listed. *)
Example distressed_record_bear :
  (generate_bear_case 1 (__init__ distressed_record)).1
  = Returns
      [ "Premium valuation: P/E ratio of 150.0x may limit upside potential";
        "High leverage risk: Debt/Equity of 3.50x increases financial vulnerability";
        "Revenue decline: -8.0% CAGR signals market share loss" ].
Proof. vm_compute. reflexivity. Qed.

Example distressed_record_flags :
  (detect_red_flags (__init__ distressed_record)).1
  = Returns
      [ "Negative return on equity (-12.0%) - company is destroying shareholder value";
        "High leverage (3.50x D/E) - elevated bankruptcy risk";
        "Liquidity crisis (Current Ratio: 0.60x) - may struggle to meet obligations";
        "Significant revenue decline (-8.0% CAGR) - business is shrinking";
        "Extreme valuation (P/E: 150.0x) - priced for perfection" ].
Proof. vm_compute. reflexivity. Qed.

Example distressed_record_risks :
  match (assess_risks (__init__ distressed_record)).1 with
  | Returns risks =>
      (λ category, risks !! category)
        <$> [ "Financial Health"; "Valuation"; "Growth"; "Liquidity";
              "Profitability" ]
  | _ => []
  end
  = [ Some "HIGH"; Some "HIGH"; Some "HIGH"; Some "HIGH"; Some "HIGH" ].
Proof. vm_compute. reflexivity. Qed.

(** Values that cannot be used read as absent. *)
Example unusable_record_values :
  ratio_value (__init__ unusable_record)
    <$> [ "ROE"; "Gross_Margin"; "Operating_Margin"; "Current_Ratio";
          "PE_Ratio"; "Debt_to_Equity" ]
  = [ None; None; None; None; None; None ]
  ∧ growth_value (__init__ unusable_record) "Total_Revenue_CAGR" = None.
Proof. split; vm_compute; reflexivity. Qed.

(** The key metrics of the strong record: absent ratios stay [None]. *)
Example strong_record_metrics :
  match (get_key_metrics (__init__ strong_record)).1 with
  | Returns metrics =>
      (λ name, metrics !! name)
        <$> [ "Current Price"; "P/E Ratio"; "Market Cap"; "Revenue";
              "Net Income"; "ROE"; "Debt/Equity"; "Current Ratio" ]
  | _ => []
  end
  = [ Some (Some 100%float); Some (Some 18%float); Some None; Some None;
      Some (Some 500%float); Some (Some 0.2%float); Some (Some 0.3%float);
      Some (Some 2.1%float) ].
Proof. vm_compute. reflexivity. Qed.

(** * Further properties of the code *)

(** ** The order of floats *)

(** Case analysis on three floats that settles a transitivity property
    of their comparisons: by kind and sign, then by exponent and
    mantissa. *)
Ltac sf_trans x y z :=
  destruct x as [sx|sx| |sx mx ex], y as [sy|sy| |sy my ey],
    z as [sz|sz| |sz mz ez]; simpl; try done;
  repeat match goal with s : bool |- _ => destruct s end; simpl; try done;
  rewrite ?Pos.compare_cont_spec; simpl;
  destruct (Z.compare_spec ex ey), (Z.compare_spec ey ez),
    (Z.compare_spec ex ez); try done; try lia;
  destruct (Pos.compare_spec mx my), (Pos.compare_spec my mz),
    (Pos.compare_spec mx mz); simpl; try done; try lia.

Lemma SFltb_trans x y z :
  SFltb x y = true → SFltb y z = true → SFltb x z = true.
Proof. unfold SFltb. sf_trans x y z. Qed.

Lemma SFleb_ltb_trans x y z :
  SFleb x y = true → SFltb y z = true → SFltb x z = true.
Proof. unfold SFltb, SFleb. sf_trans x y z. Qed.

Lemma SFltb_leb_trans x y z :
  SFltb x y = true → SFleb y z = true → SFltb x z = true.
Proof. unfold SFltb, SFleb. sf_trans x y z. Qed.

Lemma SFleb_trans x y z :
  SFleb x y = true → SFleb y z = true → SFleb x z = true.
Proof. unfold SFleb. sf_trans x y z. Qed.

Lemma SFltb_not_leb x y : SFltb x y = true → SFleb y x = false.
Proof.
  unfold SFltb, SFleb.
  destruct x as [sx|sx| |sx mx ex], y as [sy|sy| |sy my ey]; simpl; try done;
    repeat match goal with s : bool |- _ => destruct s end; simpl; try done.
  all: rewrite ?Pos.compare_cont_spec; simpl.
  all: destruct (Z.compare_spec ex ey), (Z.compare_spec ey ex); try done; try lia.
  all: destruct (Pos.compare_spec mx my), (Pos.compare_spec my mx);
         simpl; try done; try lia.
Qed.

Lemma SFleb_of_ltb x y : SFleb x y = false → SFltb x y = false.
Proof. unfold SFltb, SFleb. by destruct (SFcompare x y) as [[]|]. Qed.

(** [<] on floats is transitive. *)
Lemma ltb_trans (x y z : float) :
  (x <? y)%float = true → (y <? z)%float = true → (x <? z)%float = true.
Proof. rewrite !ltb_spec. apply SFltb_trans. Qed.

Lemma ltb_not_leb (x y : float) :
  (x <? y)%float = true → (y <=? x)%float = false.
Proof. rewrite ltb_spec, leb_spec. apply SFltb_not_leb. Qed.

Lemma ltb_asym (x y : float) :
  (x <? y)%float = true → (y <? x)%float = false.
Proof.
  intros H%ltb_not_leb. rewrite leb_spec in H. rewrite ltb_spec.
  by apply SFleb_of_ltb.
Qed.

Lemma leb_ltb_trans (x y z : float) :
  (x <=? y)%float = true → (y <? z)%float = true → (x <? z)%float = true.
Proof. rewrite !ltb_spec, leb_spec. apply SFleb_ltb_trans. Qed.

Lemma ltb_leb_trans (x y z : float) :
  (x <? y)%float = true → (y <=? z)%float = true → (x <? z)%float = true.
Proof. rewrite !ltb_spec, leb_spec. apply SFltb_leb_trans. Qed.

Lemma leb_trans (x y z : float) :
  (x <=? y)%float = true → (y <=? z)%float = true → (x <=? z)%float = true.
Proof. rewrite !leb_spec. apply SFleb_trans. Qed.

(** A NaN is the only float that differs from itself. *)
Lemma is_nan_Prim2SF (x : float) : is_nan x = true → Prim2SF x = S754_nan.
Proof.
  unfold is_nan. rewrite FloatAxioms.eqb_spec. unfold SFeqb.
  destruct (Prim2SF x) as [s|s| |s m e]; simpl; try done; try by destruct s.
  destruct s; rewrite Z.compare_refl;
    change (PosDef.Pos.compare_cont Eq m m) with (m ?= m)%positive;
    by rewrite Pos.compare_refl.
Qed.

(** Every comparison with a NaN is false. *)
Lemma nan_compares_false (x y : float) :
  is_nan x = true →
  (x <? y)%float = false ∧ (y <? x)%float = false
  ∧ (x <=? y)%float = false ∧ (y <=? x)%float = false.
Proof.
  intros H%is_nan_Prim2SF. rewrite !ltb_spec, !leb_spec, H.
  unfold SFltb, SFleb. by destruct (Prim2SF y) as [[]|[]| |[] ? ?].
Qed.

Lemma nan_mul (x y : float) : is_nan x = true → is_nan (x * y) = true.
Proof.
  intros H%is_nan_Prim2SF. unfold is_nan. rewrite FloatAxioms.eqb_spec, mul_spec, H.
  reflexivity.
Qed.

Local Transparent _get_ratio _get_growth_rate pad.

(** ** Reading the ratio table *)

Lemma positions_from_nil k l ls : positions_from k l ls = [] ↔ l ∉ ls.
Proof.
  induction ls as [|l' ls IH] in k |- *; simpl.
  - split; [intros _; apply not_elem_of_nil|done].
  - rewrite not_elem_of_cons. case_decide as Hl.
    + split; [done|]. by intros [? _].
    + rewrite IH. split; [done|]. by intros [_ ?].
Qed.

Lemma label_in_positions name axis :
  label_in name axis = bool_decide (positions (LStr name) axis ≠ []).
Proof.
  unfold label_in, positions. apply bool_decide_ext.
  rewrite positions_from_nil. split; [by intros ? ?|].
  intros H. by destruct (decide (LStr name ∈ axis)).
Qed.

Lemma df_row_first df i :
  df_columns df ≠ [] → ∃ rest, df_row df i = df_cell df i 0 :: rest.
Proof. unfold df_row. destruct (df_columns df); [done|]. simpl. eauto. Qed.

Lemma df_column_first df j :
  df_index df ≠ [] → ∃ rest, df_column df j = df_cell df 0 j :: rest.
Proof. unfold df_column. destruct (df_index df); [done|]. simpl. eauto. Qed.

Lemma df_empty_false df :
  df_index df ≠ [] → df_columns df ≠ [] → df_empty df = false.
Proof.
  intros Hi Hc. unfold df_empty.
  by rewrite !bool_decide_eq_false_2.
Qed.

(** X1.  When [name] labels exactly one row of a non-empty ratio table,
    [_get_ratio] reads the cell of that row in the first column, whatever
    the columns are called and even if [name] is also a column label: the
    cell's number if the cell can be used, [default] if it is missing or
    if testing or converting it raises. *)
Theorem row_lookup_reads_first_column (self : Generator) (df : DataFrame)
    (name : string) (default : option float) (i : nat) :
  ratios self = OFrame df →
  df_columns df ≠ [] →
  positions (LStr name) (df_index df) = [i] →
  _get_ratio name default self
  = (Returns (cell_value (df_cell df i 0) default), self).
Proof.
  intros Hratios Hcols Hpos.
  assert (df_index df ≠ []) as Hidx.
  { intros Hnil. by rewrite Hnil in Hpos. }
  destruct (df_row_first df i Hcols) as [rest Hrow].
  unfold _get_ratio, _get_ratio_try. msimpl. rewrite Hratios.
  rewrite df_empty_false, label_in_positions by done.
  rewrite bool_decide_eq_true_2 by (by rewrite Hpos).
  unfold df_loc. rewrite Hpos, Hrow. simpl.
  unfold cell_value.
  destruct (pd_notna (df_cell df i 0)) as [[]|]; [|done..].
  by destruct (py_float (df_cell df i 0)).
Qed.

Lemma row_lookup_reads_first_column_witness :
  _get_ratio "Debt_to_Equity" (Some 1.0%float) (__init__ boundary_record)
  = (Returns (Some 0.5%float), __init__ boundary_record).
Proof.
  refine (eq_trans
    (row_lookup_reads_first_column (__init__ boundary_record)
       (frame_of_rows [ ("Debt_to_Equity", PFloat 0.5) ])
       "Debt_to_Equity" (Some 1.0%float) 0 _ _ _) _).
  - vm_compute. reflexivity.
  - simpl. discriminate.
  - vm_compute. reflexivity.
  - vm_compute. reflexivity.
Defined.

(** X2.  When [name] labels no row but exactly one column of a non-empty
    ratio table, [_get_ratio] reads the cell of that column in the first
    row. *)
Theorem column_lookup_reads_first_row (self : Generator) (df : DataFrame)
    (name : string) (default : option float) (j : nat) :
  ratios self = OFrame df →
  df_index df ≠ [] →
  LStr name ∉ df_index df →
  positions (LStr name) (df_columns df) = [j] →
  _get_ratio name default self
  = (Returns (cell_value (df_cell df 0 j) default), self).
Proof.
  intros Hratios Hidx Hnot Hpos.
  assert (df_columns df ≠ []) as Hcols.
  { intros Hnil. by rewrite Hnil in Hpos. }
  destruct (df_column_first df j Hidx) as [rest Hcol].
  unfold _get_ratio, _get_ratio_try. msimpl. rewrite Hratios.
  rewrite df_empty_false by done.
  unfold label_in at 1. rewrite bool_decide_eq_false_2 by done.
  rewrite label_in_positions, bool_decide_eq_true_2 by (by rewrite Hpos).
  unfold df_len. rewrite bool_decide_eq_true_2
    by (destruct (df_index df); [done|simpl; lia]).
  unfold df_getitem. rewrite Hpos, Hcol. simpl.
  unfold cell_value.
  destruct (pd_notna (df_cell df 0 j)) as [[]|]; [|done..].
  by destruct (py_float (df_cell df 0 j)).
Qed.

Lemma column_lookup_reads_first_row_witness :
  _get_ratio "Debt_to_Equity" None (__init__ distressed_record)
  = (Returns (Some 3.5%float), __init__ distressed_record).
Proof.
  refine (eq_trans
    (column_lookup_reads_first_row (__init__ distressed_record)
       (frame_of_columns
          [ ("ROE", PFloat (-0.12)); ("Debt_to_Equity", PFloat 3.5);
            ("Current_Ratio", PFloat 0.6); ("PE_Ratio", PFloat 150);
            ("Operating_Margin", PFloat 0.01); ("Current_Price", PInt 0) ])
       "Debt_to_Equity" None 1 _ _ _ _) _).
  - vm_compute. reflexivity.
  - simpl. discriminate.
  - apply (bool_decide_unpack _). vm_compute. exact I.
  - vm_compute. reflexivity.
  - vm_compute. reflexivity.
Defined.

(** X3.  A label that occurs more than once, among the rows or (when it
    labels no row) among the columns, is never read: the lookup yields a
    table, the test of [pd.notna] on it raises, and [_get_ratio] returns
    [default]. *)
Theorem duplicated_label_reads_as_default (self : Generator) (df : DataFrame)
    (name : string) (default : option float) (i i' : nat) (more : list nat) :
  ratios self = OFrame df →
  df_index df ≠ [] → df_columns df ≠ [] →
  (positions (LStr name) (df_index df) = (i :: i' :: more))
  ∨ ((LStr name ∉ df_index df)
     ∧ (positions (LStr name) (df_columns df) = (i :: i' :: more))) →
  _get_ratio name default self = (Returns default, self).
Proof.
  intros Hratios Hidx Hcols Hdup.
  unfold _get_ratio, _get_ratio_try. msimpl. rewrite Hratios.
  rewrite df_empty_false by done.
  destruct Hdup as [Hpos|[Hnot Hpos]].
  - rewrite label_in_positions, bool_decide_eq_true_2 by (by rewrite Hpos).
    unfold df_loc. by rewrite Hpos.
  - unfold label_in at 1. rewrite bool_decide_eq_false_2 by done.
    rewrite label_in_positions, bool_decide_eq_true_2 by (by rewrite Hpos).
    unfold df_len. rewrite bool_decide_eq_true_2
      by (destruct (df_index df); [done|simpl; lia]).
    unfold df_getitem. rewrite Hpos. simpl.
    by destruct (df_index df).
Qed.

Lemma duplicated_label_reads_as_default_witness :
  _get_ratio "Debt_to_Equity" (Some 1.0%float) (__init__ unusable_record)
  = (Returns (Some 1.0%float), __init__ unusable_record).
Proof.
  apply (duplicated_label_reads_as_default (__init__ unusable_record)
           (frame_of_rows
              [ ("ROE", PNone); ("Gross_Margin", PFloat nan);
                ("Operating_Margin", PObj (Ok true) (Err ValueError));
                ("Current_Ratio", PObj (Err ValueError) (Err TypeError));
                ("PE_Ratio", PInt (2 ^ 1024));
                ("Debt_to_Equity", PFloat 9); ("Debt_to_Equity", PFloat 9) ])
           "Debt_to_Equity" (Some 1.0%float) 5 6 []).
  - vm_compute. reflexivity.
  - simpl. discriminate.
  - simpl. discriminate.
  - left. vm_compute. reflexivity.
Defined.

(** X4.  [_get_ratio] returns [default] whenever there is nothing to
    read: [self.ratios] is [None] or an object without an [empty]
    attribute (a dict, a text, a number), the table is empty, or [name]
    labels neither a row nor a column. *)
Theorem lookup_without_entry_returns_default (self : Generator)
    (name : string) (default : option float) :
  (∀ df, ratios self = OFrame df →
     df_index df = [] ∨ df_columns df = []
     ∨ ((LStr name ∉ df_index df) ∧ (LStr name ∉ df_columns df))) →
  _get_ratio name default self = (Returns default, self).
Proof.
  intros Hno.
  unfold _get_ratio, _get_ratio_try. msimpl.
  destruct (ratios self) as [| |df| |]; try done.
  destruct (Hno df eq_refl) as [Hi|[Hc|[Hi Hc]]].
  - unfold df_empty. by rewrite (bool_decide_eq_true_2 _ Hi).
  - unfold df_empty. rewrite (bool_decide_eq_true_2 _ Hc).
    by rewrite orb_true_r.
  - destruct (df_empty df); [done|].
    unfold label_in. by rewrite !bool_decide_eq_false_2.
Qed.

Lemma lookup_without_entry_returns_default_witness :
  _get_ratio "ROE" (Some 0.10%float) (__init__ boundary_record)
  = (Returns (Some 0.10%float), __init__ boundary_record)
  ∧ _get_ratio "ROE" (Some 0.10%float) (__init__ malformed_record)
    = (Returns (Some 0.10%float), __init__ malformed_record).
Proof.
  split.
  - apply (lookup_without_entry_returns_default (__init__ boundary_record)).
    intros df H. vm_compute in H. injection H as <-.
    right. right. split; apply (bool_decide_unpack _); vm_compute; exact I.
  - apply (lookup_without_entry_returns_default (__init__ malformed_record)).
    intros df H. vm_compute in H. discriminate H.
Defined.

(** X5.  The [default] of an accessor only fills gaps: a call with a
    default returns what the call without one returns, except that [None]
    is replaced by the default.  A value that can be read is never
    overridden. *)
Theorem default_only_fills_gaps (self : Generator) (name : string)
    (default : option float) :
  _get_ratio name default self
  = (Returns match ratio_value self name with
             | Some x => Some x
             | None => default
             end, self)
  ∧ _get_growth_rate name default self
    = (Returns match growth_value self name with
               | Some x => Some x
               | None => default
               end, self).
Proof. split; [apply _get_ratio_run|apply _get_growth_rate_run]. Qed.

(** X6.  When [self.growth_rates] is a dict, [_get_growth_rate] reads the
    entry under [name]: its number if the entry can be used, and [default]
    if there is no entry, if it is missing, or if testing or converting it
    raises. *)
Theorem growth_lookup_reads_the_dict (self : Generator)
    (rates : gmap string pyval) (name : string) (default : option float) :
  growth_rates self = ODict rates →
  _get_growth_rate name default self
  = (Returns match rates !! name with
             | Some v => cell_value v default
             | None => default
             end, self).
Proof.
  intros Hrates.
  unfold _get_growth_rate, _get_growth_rate_try. msimpl. rewrite Hrates.
  destruct (rates !! name) as [v|]; simpl.
  - unfold cell_value. destruct v as [|x|n|b f]; simpl; [done|..].
    + by destruct (is_nan x).
    + by destruct (is_infinity (float_of_Z n)).
    + destruct b as [[]|]; [|done..]. by destruct f.
  - destruct default as [x|]; simpl; [|done]. by destruct (is_nan x).
Qed.

Lemma growth_lookup_reads_the_dict_witness :
  _get_growth_rate "Total_Revenue_CAGR" (Some 0.05%float)
    (__init__ strong_record)
  = (Returns (Some 0.12%float), __init__ strong_record).
Proof.
  refine (eq_trans
    (growth_lookup_reads_the_dict (__init__ strong_record)
       {[ "Total_Revenue_CAGR" := PFloat 0.12 ]}
       "Total_Revenue_CAGR" (Some 0.05%float) _) _).
  - vm_compute. reflexivity.
  - vm_compute. reflexivity.
Defined.

(** X7.  Growth rates handed over as a [DataFrame] are never read:
    [get] yields a whole column, the test of [pd.notna] on it raises, and
    [_get_growth_rate] returns [default] for every name. *)
Theorem growth_table_is_never_read (self : Generator) (df : DataFrame)
    (name : string) (default : option float) :
  growth_rates self = OFrame df →
  _get_growth_rate name default self = (Returns default, self).
Proof.
  intros Hrates.
  unfold _get_growth_rate, _get_growth_rate_try. msimpl. rewrite Hrates.
  unfold df_getitem.
  destruct (positions (LStr name) (df_columns df)) as [|j [|j' cols]];
    simpl; try done.
  destruct default as [x|]; simpl; [|done]. by destruct (is_nan x).
Qed.

Lemma growth_table_is_never_read_witness :
  _get_growth_rate "Total_Revenue_CAGR" None (__init__ tabular_growth_record)
  = (Returns None, __init__ tabular_growth_record).
Proof.
  apply (growth_table_is_never_read (__init__ tabular_growth_record)
           (frame_of_columns [ ("Total_Revenue_CAGR", PFloat 0.25) ])).
  vm_compute. reflexivity.
Defined.

(** ** The padding loop *)

(** One step of the [for] loop of a padding pass. *)
Lemma pad_pass_cons fallback fallback_points points :
  pad_pass (fallback :: fallback_points) points
  = pad_pass fallback_points
      (if bool_decide (fallback ∉ points) && bool_decide (length points < 3)
       then points ++ [fallback] else points).
Proof. reflexivity. Qed.

(** What a padding pass does to any list of points: it only appends, only
    fallback statements, never a duplicate, and stops at three; a fallback
    statement it leaves out is one the list holds already, unless the list
    is full. *)
Lemma pad_pass_spec fallback_points points :
  (∃ more, pad_pass fallback_points points = points ++ more)
  ∧ (∀ s, s ∈ pad_pass fallback_points points →
       s ∈ points ∨ s ∈ fallback_points)
  ∧ (∀ s, s ∈ fallback_points →
       s ∈ pad_pass fallback_points points
       ∨ 3 ≤ length (pad_pass fallback_points points))
  ∧ (length points ≤ 3 → length (pad_pass fallback_points points) ≤ 3)
  ∧ (NoDup points → NoDup (pad_pass fallback_points points)).
Proof.
  induction fallback_points as [|f fs IH] in points |- *.
  { split_and!; try done.
    - exists []. by rewrite app_nil_r.
    - auto.
    - by intros s ?%elem_of_nil. }
  rewrite pad_pass_cons.
  set (points' := if bool_decide (f ∉ points) && bool_decide (length points < 3)
                 then points ++ [f] else points).
  destruct (IH points') as ([more Hmore] & Hfrom & Hall & Hlen & Hnd).
  assert (∃ more', points' = points ++ more') as [more' Hmore'].
  { unfold points'. case_match; [by eexists|]. exists []. by rewrite app_nil_r. }
  assert (f ∈ points' ∨ 3 ≤ length points') as Hf.
  { unfold points'. case_bool_decide as Hin; simpl.
    - case_bool_decide as Hshort; simpl; [|right; lia].
      left. apply elem_of_app. right. by apply list_elem_of_singleton.
    - by left. }
  split_and!.
  - exists (more' ++ more). by rewrite Hmore, Hmore', app_assoc.
  - intros s [Hs|Hs]%Hfrom; [|right; by right].
    unfold points' in Hs. case_match; [|by left].
    apply elem_of_app in Hs as [Hs|Hs%list_elem_of_singleton]; [by left|].
    right. subst. by left.
  - intros s [->|Hs]%elem_of_cons; [|by apply Hall].
    rewrite Hmore. destruct Hf as [Hf|Hf].
    + left. apply elem_of_app. by left.
    + right. rewrite length_app. lia.
  - intros Hshort. apply Hlen. unfold points'.
    case_bool_decide as Hin; simpl; [|done].
    case_bool_decide as Hlt; simpl; [|done].
    rewrite length_app. simpl. lia.
  - intros Hnd0. apply Hnd. unfold points'.
    case_bool_decide as Hin; simpl; [|done].
    case_match; [|done].
    apply NoDup_app. split_and!; [done| |apply NoDup_singleton].
    intros s Hs ->%list_elem_of_singleton. done.
Qed.

(** Three distinct fallback statements fill any list in one pass. *)
Lemma pad_pass_fills fallback_points points :
  NoDup fallback_points → 3 ≤ length fallback_points →
  3 ≤ length (pad_pass fallback_points points).
Proof.
  intros Hnd Hlen.
  destruct (pad_pass_spec fallback_points points) as (_ & _ & Hall & _ & _).
  destruct (decide (3 ≤ length (pad_pass fallback_points points)))
    as [|Hshort]; [done|].
  assert (fallback_points ⊆ pad_pass fallback_points points) as Hsub.
  { intros s Hs. destruct (Hall s Hs); [done|lia]. }
  apply NoDup_submseteq in Hsub; [|done].
  apply submseteq_length in Hsub. lia.
Qed.

(** X8.  The padding loop of the two case generators ends after at most
    one pass on any list of points, provided the fallback list holds three
    distinct statements: the points are kept in front, only fallback
    statements are appended, no duplicate is introduced, and a list of at
    most three points is brought to exactly three.  The fallback
    statements need not differ from the points. *)
Theorem padding_needs_one_pass (fuel : nat)
    (fallback_points points : list string) (self : Generator) :
  NoDup fallback_points → 3 ≤ length fallback_points →
  ∃ padded,
    pad (S fuel) fallback_points points self = (Returns padded, self)
    ∧ (∃ more, padded = points ++ more)
    ∧ (∀ s, s ∈ padded → s ∈ points ∨ s ∈ fallback_points)
    ∧ 3 ≤ length padded
    ∧ (length points ≤ 3 → length padded = 3)
    ∧ (NoDup points → NoDup padded).
Proof.
  intros Hnd Hlen. unfold pad. simpl.
  case_bool_decide as Hshort.
  - pose proof (pad_pass_fills fallback_points points Hnd Hlen) as Hfull.
    destruct (pad_pass_spec fallback_points points)
      as (Hmore & Hfrom & _ & Hmax & Hnd').
    exists (pad_pass fallback_points points). split_and!; try done.
    + destruct fuel; simpl; by rewrite bool_decide_eq_false_2 by lia.
    + intros Hle. specialize (Hmax Hle). lia.
  - exists points. split_and!; try done.
    + exists []. by rewrite app_nil_r.
    + auto.
    + lia.
    + lia.
Qed.

Lemma padding_needs_one_pass_witness :
  ∃ padded,
    pad 1 bull_fallback_points
      [ "Diversified revenue streams reduce concentration risk" ]
      (__init__ empty_record)
    = (Returns padded, __init__ empty_record)
    ∧ (∃ more,
         padded
         = [ "Diversified revenue streams reduce concentration risk" ] ++ more)
    ∧ (∀ s, s ∈ padded →
         s ∈ [ "Diversified revenue streams reduce concentration risk" ]
         ∨ s ∈ bull_fallback_points)
    ∧ 3 ≤ length padded
    ∧ (length [ "Diversified revenue streams reduce concentration risk" ] ≤ 3 →
       length padded = 3)
    ∧ (NoDup [ "Diversified revenue streams reduce concentration risk" ] →
       NoDup padded).
Proof.
  apply (padding_needs_one_pass 0 bull_fallback_points
           [ "Diversified revenue streams reduce concentration risk" ]
           (__init__ empty_record)).
  - apply (bool_decide_unpack _). vm_compute. exact I.
  - simpl. lia.
Defined.

Lemma pad_pass_nothing_new fallback_points points :
  (∀ s, s ∈ fallback_points → s ∈ points) →
  pad_pass fallback_points points = points.
Proof.
  induction fallback_points as [|f fs IH]; intros Hin; [done|].
  rewrite pad_pass_cons.
  rewrite (bool_decide_eq_false_2 (f ∉ points)).
  - simpl. apply IH. intros s Hs. apply Hin. by right.
  - intros Hf. apply Hf, Hin. by left.
Qed.

(** X9.  The loop relies on the fallback list: started on fewer than
    three points with a fallback list that has nothing new to offer (an
    empty list, say), it never ends, however many passes it is given. *)
Theorem padding_without_new_fallback_never_ends (fuel : nat)
    (fallback_points points : list string) (self : Generator) :
  length points < 3 →
  (∀ s, s ∈ fallback_points → s ∈ points) →
  pad fuel fallback_points points self = (Diverges, self).
Proof.
  intros Hshort Hin. unfold pad.
  induction fuel as [|fuel IH]; simpl; rewrite bool_decide_eq_true_2 by done.
  - done.
  - by rewrite pad_pass_nothing_new.
Qed.

Lemma padding_without_new_fallback_never_ends_witness :
  pad 1000 [ "Execution risk in strategic initiatives" ]
    [ "Execution risk in strategic initiatives" ] (__init__ empty_record)
  = (Diverges, __init__ empty_record).
Proof.
  apply (padding_without_new_fallback_never_ends 1000
           [ "Execution risk in strategic initiatives" ]
           [ "Execution risk in strategic initiatives" ]
           (__init__ empty_record)).
  - simpl. lia.
  - intros s Hs. exact Hs.
Defined.

(** ** What the lookups depend on *)

Lemma ratio_value_ext self self' name :
  ratios self = ratios self' → ratio_value self name = ratio_value self' name.
Proof.
  intros H. unfold ratio_value, _get_ratio, _get_ratio_try. msimpl.
  rewrite H. crunch; try done.
  all: unfold float_if_notna, iloc0, of_default in *; crunch; congruence.
Qed.

Lemma growth_value_ext self self' name :
  growth_rates self = growth_rates self' →
  growth_value self name = growth_value self' name.
Proof.
  intros H. unfold growth_value, _get_growth_rate, _get_growth_rate_try. msimpl.
  rewrite H. crunch; try done.
  all: unfold float_if_notna, iloc0, of_default in *; crunch; congruence.
Qed.

Lemma ratio_value_no_table self name :
  (∀ df, ratios self = OFrame df → df_index df = [] ∨ df_columns df = []) →
  ratio_value self name = None.
Proof.
  intros H. unfold ratio_value, _get_ratio, _get_ratio_try. msimpl.
  destruct (ratios self) as [| |df| |]; try done.
  unfold df_empty.
  by destruct (H df eq_refl) as [-> | ->]; rewrite ?orb_true_r.
Qed.

Lemma growth_value_no_entry self name :
  (∀ rates, growth_rates self = ODict rates → rates !! name = None) →
  growth_value self name = None.
Proof.
  intros H. unfold growth_value, _get_growth_rate, _get_growth_rate_try. msimpl.
  destruct (growth_rates self) as [| |df|rates|]; try done.
  - unfold df_getitem.
    by destruct (positions (LStr name) (df_columns df)) as [|j [|j' cols]].
  - by rewrite (H rates eq_refl).
Qed.

Local Opaque _get_ratio _get_growth_rate pad.

(** ** What the judgments depend on *)

(** X10.  The six judgments read nothing but [self.ratios] and
    [self.growth_rates]: two generators that agree on these two attributes
    get the same bull case, bear case, risk map, red flags, valuation
    range and key metrics, whatever their ticker, company name, market
    data and stored record. *)
Theorem judgments_read_only_the_two_tables (self self' : Generator)
    (fuel : nat) :
  ratios self = ratios self' →
  growth_rates self = growth_rates self' →
  (generate_bull_case (S fuel) self).1 = (generate_bull_case (S fuel) self').1
  ∧ (generate_bear_case (S fuel) self).1
    = (generate_bear_case (S fuel) self').1
  ∧ (assess_risks self).1 = (assess_risks self').1
  ∧ (detect_red_flags self).1 = (detect_red_flags self').1
  ∧ (calculate_valuation_range self).1 = (calculate_valuation_range self').1
  ∧ (get_key_metrics self).1 = (get_key_metrics self').1.
Proof.
  intros Hr Hg.
  pose proof (λ name, ratio_value_ext self self' name Hr) as Hrv.
  pose proof (λ name, growth_value_ext self self' name Hg) as Hgv.
  rewrite !generate_bull_case_run, !generate_bear_case_run, !assess_risks_run,
    !detect_red_flags_run, !calculate_valuation_range_run,
    !get_key_metrics_run.
  unfold bull_signals, bull_rules, bear_signals, bear_rules, risk_table,
    triggered_flags, red_flag_checks.
  rewrite !Hrv, !Hgv. split_and!; reflexivity.
Qed.

Lemma judgments_read_only_the_two_tables_witness :
  (generate_bull_case 1 (__init__ strong_record)).1
  = (generate_bull_case 1 (__init__ renamed_record)).1
  ∧ (generate_bear_case 1 (__init__ strong_record)).1
    = (generate_bear_case 1 (__init__ renamed_record)).1
  ∧ (assess_risks (__init__ strong_record)).1
    = (assess_risks (__init__ renamed_record)).1
  ∧ (detect_red_flags (__init__ strong_record)).1
    = (detect_red_flags (__init__ renamed_record)).1
  ∧ (calculate_valuation_range (__init__ strong_record)).1
    = (calculate_valuation_range (__init__ renamed_record)).1
  ∧ (get_key_metrics (__init__ strong_record)).1
    = (get_key_metrics (__init__ renamed_record)).1.
Proof.
  apply (judgments_read_only_the_two_tables (__init__ strong_record)
           (__init__ renamed_record) 0).
  - vm_compute. reflexivity.
  - vm_compute. reflexivity.
Defined.

(** X11.  A record with nothing to read gets the neutral summary: the
    fallback statements as bull and bear case, every risk MODERATE, the
    success message as only flag, a range of zeros, and no key metric.
    Nothing to read means: the ratios are absent (then [__init__] puts an
    empty table in their place), [None], an empty table, or an object
    without an [empty] attribute; and the growth rates are absent, [None],
    a dict without a revenue entry, a [DataFrame], or an object without a
    [get] method. *)
Theorem record_without_tables_gets_the_neutral_summary
    (financials : gmap string pyobj) (fuel : nat) :
  (∀ df, financials !! "ratios" = Some (OFrame df) →
     df_index df = [] ∨ df_columns df = []) →
  (∀ rates, financials !! "growth_rates" = Some (ODict rates) →
     rates !! "Total_Revenue_CAGR" = None) →
  generate_bull_case (S fuel) (__init__ financials)
  = (Returns bull_fallback_points, __init__ financials)
  ∧ generate_bear_case (S fuel) (__init__ financials)
    = (Returns bear_fallback_points, __init__ financials)
  ∧ assess_risks (__init__ financials)
    = (Returns (<["Profitability" := "MODERATE"]>
                (<["Liquidity" := "MODERATE"]> (<["Growth" := "MODERATE"]>
                (<["Valuation" := "MODERATE"]>
                (<["Financial Health" := "MODERATE"]> ∅))))),
       __init__ financials)
  ∧ detect_red_flags (__init__ financials)
    = (Returns [no_red_flags], __init__ financials)
  ∧ calculate_valuation_range (__init__ financials)
    = (Returns (valuation_range (PInt 0) (PInt 0) (PInt 0)),
       __init__ financials)
  ∧ ∃ metrics,
      get_key_metrics (__init__ financials)
      = (Returns metrics, __init__ financials)
      ∧ map_Forall (λ _ value, value = None) metrics.
Proof.
  intros Hr Hg. set (self := __init__ financials).
  assert (∀ name, ratio_value self name = None) as Hrv.
  { intros name. apply ratio_value_no_table. unfold self, __init__. simpl.
    intros df Hdf. destruct (financials !! "ratios") as [ratios|]; simpl in *.
    - apply Hr. by f_equal.
    - injection Hdf as <-. by left. }
  assert (growth_value self "Total_Revenue_CAGR" = None) as Hgv.
  { apply growth_value_no_entry. unfold self, __init__. simpl.
    intros rates Hrates.
    destruct (financials !! "growth_rates") as [growth_rates|]; simpl in *.
    - apply Hg. by f_equal.
    - by injection Hrates as <-. }
  split_and!.
  - rewrite generate_bull_case_run. unfold bull_signals, bull_rules.
    by rewrite !Hrv, !Hgv.
  - rewrite generate_bear_case_run. unfold bear_signals, bear_rules.
    by rewrite !Hrv, !Hgv.
  - rewrite assess_risks_run. unfold risk_table. by rewrite !Hrv, !Hgv.
  - rewrite detect_red_flags_run. unfold triggered_flags, red_flag_checks.
    by rewrite !Hrv, !Hgv.
  - rewrite calculate_valuation_range_run. by rewrite Hrv.
  - eexists. split; [apply get_key_metrics_run|].
    rewrite !Hrv.
    repeat apply map_Forall_insert_2; first [done | apply map_Forall_empty].
Qed.

Lemma record_without_tables_gets_the_neutral_summary_witness :
  generate_bull_case 1 (__init__ malformed_record)
  = (Returns bull_fallback_points, __init__ malformed_record)
  ∧ generate_bear_case 1 (__init__ malformed_record)
    = (Returns bear_fallback_points, __init__ malformed_record)
  ∧ assess_risks (__init__ malformed_record)
    = (Returns (<["Profitability" := "MODERATE"]>
                (<["Liquidity" := "MODERATE"]> (<["Growth" := "MODERATE"]>
                (<["Valuation" := "MODERATE"]>
                (<["Financial Health" := "MODERATE"]> ∅))))),
       __init__ malformed_record)
  ∧ detect_red_flags (__init__ malformed_record)
    = (Returns [no_red_flags], __init__ malformed_record)
  ∧ calculate_valuation_range (__init__ malformed_record)
    = (Returns (valuation_range (PInt 0) (PInt 0) (PInt 0)),
       __init__ malformed_record)
  ∧ ∃ metrics,
      get_key_metrics (__init__ malformed_record)
      = (Returns metrics, __init__ malformed_record)
      ∧ map_Forall (λ _ value, value = None) metrics.
Proof.
  apply (record_without_tables_gets_the_neutral_summary malformed_record 0).
  - intros df H. vm_compute in H. discriminate H.
  - intros rates H. vm_compute in H. discriminate H.
Defined.

(** ** Numbers that are not numbers *)

Lemma nan_ltb_l (x y : float) : is_nan x = true → (x <? y)%float = false.
Proof. intros H. apply (nan_compares_false x y H). Qed.
Lemma nan_ltb_r (x y : float) : is_nan x = true → (y <? x)%float = false.
Proof. intros H. apply (nan_compares_false x y H). Qed.
Lemma nan_leb_l (x y : float) : is_nan x = true → (x <=? y)%float = false.
Proof. intros H. apply (nan_compares_false x y H). Qed.
Lemma nan_leb_r (x y : float) : is_nan x = true → (y <=? x)%float = false.
Proof. intros H. apply (nan_compares_false x y H). Qed.

(** A value that is absent or a NaN fires no rule. *)
Lemma when_nan v (fires : float → bool) message :
  (∀ x, v = Some x → is_nan x = true) →
  (∀ x, is_nan x = true → fires x = false) →
  when v fires message = None.
Proof. intros Hv Hfires. apply when_None. intros x Hx. eauto. Qed.

(** A defaulted input that is absent or a NaN is its default or a NaN. *)
Lemma default_or_nan d v :
  (∀ x, v = Some x → is_nan x = true) →
  default d v = d ∨ is_nan (default d v) = true.
Proof. intros H. destruct v as [x|]; simpl; [right; by apply H|by left]. Qed.

(** Settle the comparisons with the floats known to be NaN. *)
Ltac nan_cmp :=
  repeat match goal with
  | H : is_nan ?x = true |- _ =>
      progress rewrite ?(nan_ltb_l x _ H), ?(nan_ltb_r x _ H),
        ?(nan_leb_l x _ H), ?(nan_leb_r x _ H)
  end.

(** X12.  A NaN counts for nothing in the rules: when every number the
    judgments read is absent or a NaN (a cell holding the text [nan], for
    one), no bull or bear rule fires, no red flag is raised, and every
    risk is rated MODERATE, because every comparison with a NaN is
    false. *)
Theorem nan_reads_as_neutral (self : Generator) (fuel : nat) :
  Forall (λ name, ∀ x, ratio_value self name = Some x → is_nan x = true)
    [ "ROE"; "Gross_Margin"; "Operating_Margin"; "Current_Ratio";
      "Debt_to_Equity"; "PE_Ratio"; "Net_Income" ] →
  (∀ x, growth_value self "Total_Revenue_CAGR" = Some x → is_nan x = true) →
  generate_bull_case (S fuel) self = (Returns bull_fallback_points, self)
  ∧ generate_bear_case (S fuel) self = (Returns bear_fallback_points, self)
  ∧ detect_red_flags self = (Returns [no_red_flags], self)
  ∧ assess_risks self
    = (Returns (<["Profitability" := "MODERATE"]>
                (<["Liquidity" := "MODERATE"]> (<["Growth" := "MODERATE"]>
                (<["Valuation" := "MODERATE"]>
                (<["Financial Health" := "MODERATE"]> ∅))))), self).
Proof.
  intros Hratios Hg.
  rewrite !Forall_cons in Hratios.
  destruct Hratios as (Hroe & Hgm & Hom & Hcr & Hde & Hpe & Hni & _).
  split_and!.
  - rewrite generate_bull_case_run. unfold bull_signals, bull_rules.
    rewrite !when_nan by (done || (intros; by nan_cmp)).
    destruct (ratio_value self "Net_Income") as [net_income|]; [|done].
    destruct (ratio_value self "Operating_Cash_Flow") as [ocf|]; [|done].
    by rewrite (nan_ltb_l net_income ocf) by (by apply Hni).
  - rewrite generate_bear_case_run. unfold bear_signals, bear_rules.
    by rewrite !when_nan by (done || (intros; by nan_cmp)).
  - rewrite detect_red_flags_run. unfold triggered_flags, red_flag_checks.
    by rewrite !when_nan by (done || (intros; by nan_cmp)).
  - rewrite assess_risks_run. unfold risk_table. cbv zeta.
    assert (profitability (default 0.10%float (ratio_value self "ROE"))
              (default 0.10%float (ratio_value self "Operating_Margin"))
            = "MODERATE") as ->.
    { destruct (default_or_nan 0.10%float _ Hroe) as [-> | Hroe'],
        (default_or_nan 0.10%float _ Hom) as [-> | Hom'];
        unfold profitability; nan_cmp; reflexivity. }
    assert (liquidity (default 1.0%float (ratio_value self "Current_Ratio"))
            = "MODERATE") as ->.
    { destruct (default_or_nan 1.0%float _ Hcr) as [-> | Hcr'];
        unfold liquidity; nan_cmp; reflexivity. }
    assert (growth
              (default 0.05%float (growth_value self "Total_Revenue_CAGR"))
            = "MODERATE") as ->.
    { destruct (default_or_nan 0.05%float _ Hg) as [-> | Hg'];
        unfold growth; nan_cmp; reflexivity. }
    assert (valuation (default 20.0%float (ratio_value self "PE_Ratio"))
            = "MODERATE") as ->.
    { destruct (default_or_nan 20.0%float _ Hpe) as [-> | Hpe'];
        unfold valuation; nan_cmp; reflexivity. }
    assert (financial_health
              (default 1.0%float (ratio_value self "Current_Ratio"))
              (default 1.0%float (ratio_value self "Debt_to_Equity"))
            = "MODERATE") as ->.
    { destruct (default_or_nan 1.0%float _ Hcr) as [-> | Hcr'],
        (default_or_nan 1.0%float _ Hde) as [-> | Hde'];
        unfold financial_health; nan_cmp; reflexivity. }
    reflexivity.
Qed.

Lemma nan_reads_as_neutral_witness :
  generate_bull_case 1 (__init__ nan_record)
  = (Returns bull_fallback_points, __init__ nan_record)
  ∧ generate_bear_case 1 (__init__ nan_record)
    = (Returns bear_fallback_points, __init__ nan_record)
  ∧ detect_red_flags (__init__ nan_record)
    = (Returns [no_red_flags], __init__ nan_record)
  ∧ assess_risks (__init__ nan_record)
    = (Returns (<["Profitability" := "MODERATE"]>
                (<["Liquidity" := "MODERATE"]> (<["Growth" := "MODERATE"]>
                (<["Valuation" := "MODERATE"]>
                (<["Financial Health" := "MODERATE"]> ∅))))),
       __init__ nan_record).
Proof.
  apply (nan_reads_as_neutral (__init__ nan_record) 0).
  - repeat constructor; intros x H; vm_compute in H; injection H as <-;
      reflexivity.
  - intros x H. vm_compute in H. injection H as <-. reflexivity.
Defined.

(** X13.  A NaN price slips through the guard of the valuation range:
    it is not [<= 0], so the range is computed from it and its three
    prices are NaN, not the zeros of a missing price. *)
Theorem nan_price_gives_nan_range (self : Generator) (price : float) :
  ratio_value self "Current_Price" = Some price →
  is_nan price = true →
  ∃ bear bull,
    calculate_valuation_range self
    = (Returns (valuation_range (PFloat bear) (PFloat price) (PFloat bull)),
       self)
    ∧ is_nan bear = true ∧ is_nan bull = true.
Proof.
  intros Hprice Hnan. exists (price * 0.80)%float, (price * 1.25)%float.
  rewrite calculate_valuation_range_run, Hprice, (nan_leb_l price) by done.
  split_and!; [done|by apply nan_mul..].
Qed.

Lemma nan_price_gives_nan_range_witness :
  ∃ bear bull,
    calculate_valuation_range (__init__ nan_record)
    = (Returns (valuation_range (PFloat bear) (PFloat nan) (PFloat bull)),
       __init__ nan_record)
    ∧ is_nan bear = true ∧ is_nan bull = true.
Proof.
  apply (nan_price_gives_nan_range (__init__ nan_record) nan).
  - vm_compute. reflexivity.
  - vm_compute. reflexivity.
Defined.

(** ** The judgments together *)

Lemma risk_table_lookups self :
  risk_table self !! "Financial Health"
  = Some (financial_health
            (default 1.0%float (ratio_value self "Current_Ratio"))
            (default 1.0%float (ratio_value self "Debt_to_Equity")))
  ∧ risk_table self !! "Valuation"
    = Some (valuation (default 20.0%float (ratio_value self "PE_Ratio")))
  ∧ risk_table self !! "Growth"
    = Some (growth
              (default 0.05%float (growth_value self "Total_Revenue_CAGR")))
  ∧ risk_table self !! "Liquidity"
    = Some (liquidity (default 1.0%float (ratio_value self "Current_Ratio")))
  ∧ risk_table self !! "Profitability"
    = Some (profitability (default 0.10%float (ratio_value self "ROE"))
              (default 0.10%float (ratio_value self "Operating_Margin"))).
Proof. unfold risk_table. cbv zeta. split_and!; by simplify_map_eq. Qed.

Lemma elem_of_omap_id (s : string) (rules : list (option string)) :
  s ∈ omap id rules ↔ Some s ∈ rules.
Proof.
  rewrite list_elem_of_omap. split.
  - by intros ([x|] & Hin & [= <-]).
  - intros Hin. by exists (Some s).
Qed.

Lemma triggered_flag_is_listed self s :
  Some s ∈ red_flag_checks self →
  s ∈ match triggered_flags self with
      | [] => [no_red_flags]
      | flags => flags
      end.
Proof.
  intros Hin%elem_of_omap_id. fold (triggered_flags self) in Hin.
  destruct (triggered_flags self); [by apply elem_of_nil in Hin|done].
Qed.

Ltac solve_elem :=
  repeat first [ by apply list_elem_of_here | apply list_elem_of_further ].

(** X14.  A red flag never comes with a mild rating: whenever a check of
    [detect_red_flags] triggers, its warning is in the list and
    [assess_risks] rates the matching category HIGH (Profitability for a
    negative ROE, Financial Health for leverage above 2, Liquidity and
    Financial Health for a current ratio below 0.8, Growth for a revenue
    decline beyond 5%, Valuation for a P/E above 100). *)
Theorem every_red_flag_is_rated_high (self : Generator) :
  ∃ flags risks,
    detect_red_flags self = (Returns flags, self)
    ∧ assess_risks self = (Returns risks, self)
    ∧ (∀ roe, ratio_value self "ROE" = Some roe → (roe <? 0)%float = true →
         "Negative return on equity (" +:+ format_f 1 (roe * 100)%float
         +:+ "%) - company is destroying shareholder value" ∈ flags
         ∧ risks !! "Profitability" = Some "HIGH")
    ∧ (∀ de, ratio_value self "Debt_to_Equity" = Some de →
         (2.0 <? de)%float = true →
         "High leverage (" +:+ format_f 2 de
         +:+ "x D/E) - elevated bankruptcy risk" ∈ flags
         ∧ risks !! "Financial Health" = Some "HIGH")
    ∧ (∀ cr, ratio_value self "Current_Ratio" = Some cr →
         (cr <? 0.8)%float = true →
         "Liquidity crisis (Current Ratio: " +:+ format_f 2 cr
         +:+ "x) - may struggle to meet obligations" ∈ flags
         ∧ risks !! "Liquidity" = Some "HIGH"
         ∧ risks !! "Financial Health" = Some "HIGH")
    ∧ (∀ g, growth_value self "Total_Revenue_CAGR" = Some g →
         (g <? -0.05)%float = true →
         "Significant revenue decline (" +:+ format_f 1 (g * 100)%float
         +:+ "% CAGR) - business is shrinking" ∈ flags
         ∧ risks !! "Growth" = Some "HIGH")
    ∧ (∀ pe, ratio_value self "PE_Ratio" = Some pe →
         (100 <? pe)%float = true →
         "Extreme valuation (P/E: " +:+ format_f 1 pe
         +:+ "x) - priced for perfection" ∈ flags
         ∧ risks !! "Valuation" = Some "HIGH").
Proof.
  eexists _, _. split; [apply detect_red_flags_run|].
  split; [apply assess_risks_run|].
  destruct (risk_table_lookups self) as (Hfh & Hv & Hg & Hl & Hp).
  split_and!.
  - intros roe Hroe Hneg. split.
    + apply triggered_flag_is_listed. unfold red_flag_checks.
      rewrite Hroe. unfold when at 1. rewrite Hneg. solve_elem.
    + rewrite Hp, Hroe. simpl. unfold profitability.
      rewrite (ltb_asym roe 0.15) by (by apply (ltb_trans _ 0)).
      by rewrite Hneg.
  - intros de Hde Hhigh. split.
    + apply triggered_flag_is_listed. unfold red_flag_checks.
      rewrite Hde. unfold when at 2. rewrite Hhigh. solve_elem.
    + rewrite Hfh, Hde. simpl. unfold financial_health.
      rewrite (ltb_not_leb 0.5 de) by (by apply (ltb_trans _ 2.0)).
      by rewrite Hhigh, andb_false_r, orb_true_r.
  - intros cr Hcr Hlow.
    assert ((cr <? 1.0)%float = true) as Hlt1 by (by apply (ltb_trans _ 0.8)).
    split_and!.
    + apply triggered_flag_is_listed. unfold red_flag_checks.
      rewrite Hcr. unfold when at 3. rewrite Hlow. solve_elem.
    + rewrite Hl, Hcr. simpl. unfold liquidity.
      rewrite (ltb_not_leb cr 2.0) by (by apply (ltb_trans _ 1.0)).
      by rewrite Hlt1.
    + rewrite Hfh, Hcr. simpl. unfold financial_health.
      rewrite (ltb_not_leb cr 1.5) by (by apply (ltb_trans _ 1.0)).
      by rewrite Hlt1.
  - intros g Hgv Hlow. split.
    + apply triggered_flag_is_listed. unfold red_flag_checks.
      rewrite Hgv. unfold when at 4. rewrite Hlow. solve_elem.
    + rewrite Hg, Hgv. simpl. unfold growth.
      assert ((g <? 0)%float = true) as H0 by (by apply (ltb_trans _ (-0.05))).
      rewrite (ltb_asym g 0.10) by (by apply (ltb_trans _ 0)).
      by rewrite H0.
  - intros pe Hpe Hhigh. split.
    + apply triggered_flag_is_listed. unfold red_flag_checks.
      rewrite Hpe. unfold when at 5. rewrite Hhigh. solve_elem.
    + rewrite Hv, Hpe. simpl. unfold valuation.
      rewrite (ltb_asym 20 pe) by (by apply (ltb_trans _ 100)).
      by rewrite (ltb_trans 40 100 pe).
Qed.

(** X15.  Financial Health is rated HIGH exactly when Liquidity is rated
    HIGH or the debt-to-equity ratio (1.0 when missing) is above 2: the
    two ratings share the current ratio and never disagree on it. *)
Theorem financial_health_high_iff (self : Generator) :
  ∃ risks,
    assess_risks self = (Returns risks, self)
    ∧ (risks !! "Financial Health" = Some "HIGH"
       ↔ risks !! "Liquidity" = Some "HIGH"
         ∨ (2.0 <? default 1.0 (ratio_value self "Debt_to_Equity"))%float
           = true).
Proof.
  eexists. split; [apply assess_risks_run|].
  destruct (risk_table_lookups self) as (-> & _ & _ & -> & _).
  set (cr := default 1.0%float (ratio_value self "Current_Ratio")).
  set (de := default 1.0%float (ratio_value self "Debt_to_Equity")).
  unfold financial_health, liquidity.
  destruct (cr <? 1.0)%float eqn:Hcr.
  - rewrite (ltb_not_leb cr 1.5) by (by apply (ltb_trans _ 1.0)).
    rewrite (ltb_not_leb cr 2.0) by (by apply (ltb_trans _ 1.0)).
    simpl. split; auto.
  - destruct (2.0 <? de)%float eqn:Hde.
    + rewrite (ltb_not_leb 0.5 de) by (by apply (ltb_trans _ 2.0)).
      rewrite andb_false_r. simpl. split; auto.
    + simpl. split.
      * by destruct (_ && _).
      * intros [H|H]; [|done]. by destruct (2.0 <=? cr)%float.
Qed.

(** A rule that fires with fewer than three rules before it has its
    message among the three points kept. *)
Lemma kept_in_case (rules before after : list (option string))
    (m : string) (fallback_points : list string) :
  rules = before ++ Some m :: after →
  length before < 3 →
  m ∈ take 3 (omap id rules ++ fallback_points).
Proof.
  intros -> Hlen. rewrite omap_app.
  change (omap id (Some m :: after)) with (m :: omap id after).
  assert (length (omap id before) < 3) as Hk.
  { rewrite length_omap_id. pose proof (length_filter is_Some before). lia. }
  apply (list_elem_of_lookup_2 _ (length (omap id before))).
  rewrite lookup_take_lt by done.
  rewrite <- app_assoc, <- app_comm_cons. by apply list_lookup_middle.
Qed.

(** The first rule, when it fires, opens the case. *)
Lemma first_in_case (rules after : list (option string)) (m : string)
    (fallback_points : list string) :
  rules = Some m :: after →
  take 3 (omap id rules ++ fallback_points) !! 0 = Some m.
Proof. by intros ->. Qed.

(** A rule that does not fire contributes no opening. *)
Lemma silent_rule_openings (rules : list (option string))
    (kss : list (list string)) (i : nat) :
  Forall2 (λ r ks, ∀ s, r = Some s → opening s ∈ ks) rules kss →
  rules !! i = Some None →
  Forall2 (λ r ks, ∀ s, r = Some s → opening s ∈ ks) rules (<[i := []]> kss).
Proof.
  intros H Hi. rewrite <- (list_insert_id rules i None Hi).
  apply Forall2_insert; [done|]. by intros s [=].
Qed.

(** The messages of a rule that does not fire are not among the points. *)
Lemma not_in_case (rules : list (option string)) (kss : list (list string))
    (fallback_points : list string) (i : nat) (s : string) :
  Forall2 (λ r ks, ∀ s, r = Some s → opening s ∈ ks) rules kss →
  rules !! i = Some None →
  opening s ∉ concat (<[i := []]> kss) ++ (opening <$> fallback_points) →
  s ∉ take 3 (omap id rules ++ fallback_points).
Proof.
  intros Hrules Hi Hs. eapply not_in_points; [|done].
  by apply silent_rule_openings.
Qed.

Ltac other_opening := apply (bool_decide_unpack _); vm_compute; exact I.

(** X16.  The risk ratings agree with the two cases.  When Profitability
    is rated LOW, the bull case opens with the ROE point and holds the
    operating-margin point; when Valuation is rated HIGH, the bear case
    opens with the valuation point; when Growth is rated HIGH, the bear
    case holds the revenue-decline point.  In each case the rated input is
    present: a default never earns one of these ratings. *)
Theorem ratings_agree_with_cases (self : Generator) (fuel : nat) :
  ∃ risks bull bear,
    assess_risks self = (Returns risks, self)
    ∧ generate_bull_case (S fuel) self = (Returns bull, self)
    ∧ generate_bear_case (S fuel) self = (Returns bear, self)
    ∧ (risks !! "Profitability" = Some "LOW" →
       ∃ roe op_margin,
         ratio_value self "ROE" = Some roe
         ∧ ratio_value self "Operating_Margin" = Some op_margin
         ∧ bull !! 0
           = Some ("Strong profitability: ROE of "
                   +:+ format_f 1 (roe * 100)%float
                   +:+ "%, indicating efficient use of shareholder capital")
         ∧ "Strong operating efficiency: Operating margin of "
           +:+ format_f 1 (op_margin * 100)%float +:+ "%" ∈ bull)
    ∧ (risks !! "Valuation" = Some "HIGH" →
       ∃ pe_ratio,
         ratio_value self "PE_Ratio" = Some pe_ratio
         ∧ bear !! 0
           = Some ("Premium valuation: P/E ratio of " +:+ format_f 1 pe_ratio
                   +:+ "x may limit upside potential"))
    ∧ (risks !! "Growth" = Some "HIGH" →
       ∃ rev_cagr,
         growth_value self "Total_Revenue_CAGR" = Some rev_cagr
         ∧ "Revenue decline: " +:+ format_f 1 (rev_cagr * 100)%float
           +:+ "% CAGR signals market share loss" ∈ bear).
Proof.
  eexists _, _, _. split; [apply assess_risks_run|].
  split; [apply generate_bull_case_run|].
  split; [apply generate_bear_case_run|].
  destruct (risk_table_lookups self) as (_ & -> & -> & _ & ->).
  split_and!.
  - intros [= Hlow]. unfold profitability in Hlow.
    destruct (_ && _) eqn:Hboth in Hlow; [|by case_match].
    apply andb_true_iff in Hboth as [Hroe Hom].
    destruct (ratio_value self "ROE") as [roe|] eqn:Eroe; [|done].
    destruct (ratio_value self "Operating_Margin") as [om|] eqn:Eom; [|done].
    simpl in Hroe, Hom. exists roe, om. split; [done|]. split; [done|].
    unfold bull_signals, bull_rules. rewrite Eroe, Eom.
    split.
    + unfold when at 1. rewrite Hroe. by eapply first_in_case.
    + unfold when at 3. rewrite Hom.
      eapply (kept_in_case _ [_; _]); [reflexivity|simpl; lia].
  - intros [= Hhigh]. unfold valuation in Hhigh.
    destruct (_ <? 20)%float; [done|].
    destruct (40 <? _)%float eqn:Hpe in Hhigh; [|done].
    destruct (ratio_value self "PE_Ratio") as [pe|] eqn:Epe; [|done].
    simpl in Hpe. exists pe. split; [done|].
    unfold bear_signals, bear_rules. rewrite Epe.
    unfold when at 1. rewrite (ltb_trans 30 40 pe) by done.
    by eapply first_in_case.
  - intros [= Hhigh]. unfold growth in Hhigh.
    destruct (0.10 <? _)%float; [done|].
    destruct (_ <? 0)%float eqn:Hg in Hhigh; [|done].
    destruct (growth_value self "Total_Revenue_CAGR") as [g|] eqn:Eg; [|done].
    simpl in Hg. exists g. split; [done|].
    unfold bear_signals, bear_rules. rewrite Eg.
    unfold when at 3. rewrite (ltb_trans g 0 0.03), Hg by done.
    eapply (kept_in_case _ [_; _]); [reflexivity|simpl; lia].
Qed.

(** X17.  A red flag on valuation, leverage or revenue is always echoed
    in the bear case: the bear rules on these three inputs come first and
    have lower thresholds (30 against 100, 1.5 against 2, 3% growth
    against a 5% decline), so their points are among the three kept. *)
Theorem flagged_inputs_reach_the_bear_case (self : Generator) (fuel : nat) :
  ∃ bear,
    generate_bear_case (S fuel) self = (Returns bear, self)
    ∧ (∀ pe_ratio, ratio_value self "PE_Ratio" = Some pe_ratio →
         (100 <? pe_ratio)%float = true →
         bear !! 0
         = Some ("Premium valuation: P/E ratio of " +:+ format_f 1 pe_ratio
                 +:+ "x may limit upside potential"))
    ∧ (∀ de_ratio, ratio_value self "Debt_to_Equity" = Some de_ratio →
         (2.0 <? de_ratio)%float = true →
         "High leverage risk: Debt/Equity of " +:+ format_f 2 de_ratio
         +:+ "x increases financial vulnerability" ∈ bear)
    ∧ (∀ rev_cagr, growth_value self "Total_Revenue_CAGR" = Some rev_cagr →
         (rev_cagr <? -0.05)%float = true →
         "Revenue decline: " +:+ format_f 1 (rev_cagr * 100)%float
         +:+ "% CAGR signals market share loss" ∈ bear).
Proof.
  eexists. split; [apply generate_bear_case_run|].
  unfold bear_signals, bear_rules. split_and!.
  - intros pe Epe Hpe. rewrite Epe.
    unfold when at 1. rewrite (ltb_trans 30 100 pe) by done.
    by eapply first_in_case.
  - intros de Ede Hde. rewrite Ede.
    unfold when at 2. rewrite (ltb_trans 1.5 2.0 de) by done.
    eapply (kept_in_case _ [_]); [reflexivity|simpl; lia].
  - intros g Eg Hg. rewrite Eg.
    assert ((g <? 0)%float = true) as Hneg by (by apply (ltb_trans _ (-0.05))).
    unfold when at 3. rewrite (ltb_trans g 0 0.03), Hneg by done.
    eapply (kept_in_case _ [_; _]); [reflexivity|simpl; lia].
Qed.

(** Two rules on the same input whose conditions exclude each other
    never fire together. *)
Lemma opposed_whens (v : option float) (fires fires' : float → bool)
    (message message' : float → string) :
  (∀ x, fires x = true → fires' x = false) →
  Some (when v fires message) = Some None
  ∨ Some (when v fires' message') = Some None.
Proof.
  intros H. destruct v as [x|]; simpl; [|by left].
  destruct (fires x) eqn:Hx; [|by left]. right. by rewrite (H x Hx).
Qed.

(** The bull rule and the bear rule on the same input, by position. *)
Lemma opposed_rules_silent self :
  (bull_rules self !! 0 = Some None ∨ bear_rules self !! 5 = Some None)
  ∧ (bull_rules self !! 2 = Some None ∨ bear_rules self !! 3 = Some None)
  ∧ (bull_rules self !! 3 = Some None ∨ bear_rules self !! 4 = Some None)
  ∧ (bull_rules self !! 4 = Some None ∨ bear_rules self !! 1 = Some None)
  ∧ (bull_rules self !! 5 = Some None ∨ bear_rules self !! 2 = Some None).
Proof.
  split_and!; apply opposed_whens; intros x Hx.
  - apply ltb_asym. by apply (ltb_trans _ 0.15).
  - apply ltb_asym. by apply (ltb_trans _ 0.15).
  - apply ltb_asym. by apply (ltb_trans _ 1.5).
  - apply ltb_asym. by apply (ltb_trans _ 0.5).
  - apply ltb_asym. by apply (ltb_trans _ 0.10).
Qed.

(** X18.  The two cases never contradict each other on an input: if the
    bull case praises the return on equity, the operating margin, the
    current ratio, the leverage or the revenue growth, the bear case does
    not criticise the same input, whatever numbers the two points show. *)
Theorem cases_never_contradict (self : Generator) (fuel : nat) :
  ∃ bull bear,
    generate_bull_case (S fuel) self = (Returns bull, self)
    ∧ generate_bear_case (S fuel) self = (Returns bear, self)
    ∧ (∀ x y,
         "Strong profitability: ROE of " +:+ format_f 1 x
         +:+ "%, indicating efficient use of shareholder capital" ∈ bull →
         ("Negative profitability: ROE of " +:+ format_f 1 y
          +:+ "% indicates losses" ∉ bear)
         ∧ ("Low returns: ROE of " +:+ format_f 1 y
            +:+ "% underperforms cost of equity" ∉ bear))
    ∧ (∀ x y,
         "Strong operating efficiency: Operating margin of "
         +:+ format_f 1 x +:+ "%" ∈ bull →
         "Thin margins: Operating margin of " +:+ format_f 1 y
         +:+ "% leaves little room for error" ∉ bear)
    ∧ (∀ x y,
         "Solid liquidity: Current ratio of " +:+ format_f 2 x
         +:+ "x provides financial flexibility" ∈ bull →
         "Liquidity concerns: Current ratio of " +:+ format_f 2 y
         +:+ "x may strain operations" ∉ bear)
    ∧ (∀ x y,
         "Conservative balance sheet: Debt/Equity of " +:+ format_f 2 x
         +:+ "x indicates low financial risk" ∈ bull →
         "High leverage risk: Debt/Equity of " +:+ format_f 2 y
         +:+ "x increases financial vulnerability" ∉ bear)
    ∧ (∀ x y,
         "Consistent growth: Revenue CAGR of " +:+ format_f 1 x
         +:+ "% demonstrates market expansion" ∈ bull →
         ("Revenue decline: " +:+ format_f 1 y
          +:+ "% CAGR signals market share loss" ∉ bear)
         ∧ ("Slowing growth: " +:+ format_f 1 y
            +:+ "% revenue CAGR suggests market maturation" ∉ bear)).
Proof.
  eexists _, _. split; [apply generate_bull_case_run|].
  split; [apply generate_bear_case_run|].
  destruct (opposed_rules_silent self) as (Hroe & Hom & Hcr & Hde & Hg).
  pose proof (bull_rules_openings self) as Hbull.
  pose proof (bear_rules_openings self) as Hbear.
  split_and!; intros x y Hin.
  - destruct Hroe as [Hsilent|Hsilent].
    + exfalso. revert Hin. eapply not_in_case; [done..|other_opening].
    + split; (eapply not_in_case; [done..|other_opening]).
  - destruct Hom as [Hsilent|Hsilent].
    + exfalso. revert Hin. eapply not_in_case; [done..|other_opening].
    + eapply not_in_case; [done..|other_opening].
  - destruct Hcr as [Hsilent|Hsilent].
    + exfalso. revert Hin. eapply not_in_case; [done..|other_opening].
    + eapply not_in_case; [done..|other_opening].
  - destruct Hde as [Hsilent|Hsilent].
    + exfalso. revert Hin. eapply not_in_case; [done..|other_opening].
    + eapply not_in_case; [done..|other_opening].
  - destruct Hg as [Hsilent|Hsilent].
    + exfalso. revert Hin. eapply not_in_case; [done..|other_opening].
    + split; (eapply not_in_case; [done..|other_opening]).
Qed.

(** X19.  The key metrics have exactly the eight display names, and
    their price is the price the valuation range starts from: without a
    price metric, or with one that is at most zero, the range is zeros,
    and a price metric above zero is the base case. *)
Theorem key_metrics_and_valuation_share_the_price (self : Generator) :
  ∃ metrics range,
    get_key_metrics self = (Returns metrics, self)
    ∧ calculate_valuation_range self = (Returns range, self)
    ∧ dom metrics
      = {[ "Current Price"; "P/E Ratio"; "Market Cap"; "Revenue";
           "Net Income"; "ROE"; "Debt/Equity"; "Current Ratio" ]}
    ∧ (metrics !! "Current Price" = Some None →
       range = valuation_range (PInt 0) (PInt 0) (PInt 0))
    ∧ (∀ price, metrics !! "Current Price" = Some (Some price) →
         (price <=? 0)%float = true →
         range = valuation_range (PInt 0) (PInt 0) (PInt 0))
    ∧ (∀ price, metrics !! "Current Price" = Some (Some price) →
         (0 <? price)%float = true →
         range !! "base_case" = Some (PFloat price)).
Proof.
  eexists _, _. split; [apply get_key_metrics_run|].
  split; [apply calculate_valuation_range_run|].
  rewrite lookup_insert_eq.
  split_and!.
  - rewrite !dom_insert_L, dom_empty_L. set_solver.
  - by intros [= ->].
  - intros price [= ->] Hle. by rewrite Hle.
  - intros price [= ->] Hpos. by rewrite (positive_not_le_zero price Hpos).
Qed.

(** ** The bear case, like the bull case *)

(** X20.  When the first three bear rules fire (P/E above 30, leverage
    above 1.5, revenue growth below 3%), the bear case is exactly their
    three messages in that order, whatever the other rules do; the third
    message speaks of a decline when growth is negative and of slowing
    growth otherwise. *)
Theorem bear_case_keeps_first_three_rules (self : Generator) (fuel : nat)
    (pe_ratio de_ratio rev_cagr : float) :
  ratio_value self "PE_Ratio" = Some pe_ratio →
  (30 <? pe_ratio)%float = true →
  ratio_value self "Debt_to_Equity" = Some de_ratio →
  (1.5 <? de_ratio)%float = true →
  growth_value self "Total_Revenue_CAGR" = Some rev_cagr →
  (rev_cagr <? 0.03)%float = true →
  generate_bear_case (S fuel) self
  = (Returns
       [ "Premium valuation: P/E ratio of " +:+ format_f 1 pe_ratio
         +:+ "x may limit upside potential";
         "High leverage risk: Debt/Equity of " +:+ format_f 2 de_ratio
         +:+ "x increases financial vulnerability";
         if (rev_cagr <? 0)%float
         then "Revenue decline: " +:+ format_f 1 (rev_cagr * 100)%float
              +:+ "% CAGR signals market share loss"
         else "Slowing growth: " +:+ format_f 1 (rev_cagr * 100)%float
              +:+ "% revenue CAGR suggests market maturation" ],
     self).
Proof.
  intros Hpe Hpe' Hde Hde' Hg Hg'.
  rewrite generate_bear_case_run. unfold bear_signals, bear_rules.
  rewrite Hpe, Hde, Hg. unfold when at 1 2 3. rewrite Hpe', Hde', Hg'.
  reflexivity.
Qed.

Lemma bear_case_keeps_first_three_rules_witness :
  generate_bear_case 1 (__init__ distressed_record)
  = (Returns
       [ "Premium valuation: P/E ratio of 150.0x may limit upside potential";
         "High leverage risk: Debt/Equity of 3.50x increases financial vulnerability";
         "Revenue decline: -8.0% CAGR signals market share loss" ],
     __init__ distressed_record).
Proof.
  refine (eq_trans
    (bear_case_keeps_first_three_rules (__init__ distressed_record) 0
       150 3.5 (-0.08) _ _ _ _ _ _) _);
    vm_compute; reflexivity.
Defined.

(** X21.  When no bear rule fires (each rule's input is absent or fails
    its condition), the bear case is its three fallback statements in
    their fixed order. *)
Theorem bear_case_without_signals (self : Generator) (fuel : nat) :
  (∀ pe_ratio, ratio_value self "PE_Ratio" = Some pe_ratio →
     (30 <? pe_ratio)%float = false) →
  (∀ de_ratio, ratio_value self "Debt_to_Equity" = Some de_ratio →
     (1.5 <? de_ratio)%float = false) →
  (∀ rev_cagr, growth_value self "Total_Revenue_CAGR" = Some rev_cagr →
     (rev_cagr <? 0.03)%float = false) →
  (∀ op_margin, ratio_value self "Operating_Margin" = Some op_margin →
     (op_margin <? 0.05)%float = false) →
  (∀ current_ratio, ratio_value self "Current_Ratio" = Some current_ratio →
     (current_ratio <? 1.0)%float = false) →
  (∀ roe, ratio_value self "ROE" = Some roe → (roe <? 0.05)%float = false) →
  generate_bear_case (S fuel) self
  = (Returns
       [ "Competitive pressure may compress margins over time";
         "Macroeconomic sensitivity could impact near-term results";
         "Execution risk in strategic initiatives" ],
     self).
Proof.
  intros H1 H2 H3 H4 H5 H6.
  rewrite generate_bear_case_run. unfold bear_signals, bear_rules.
  by rewrite !when_None by done.
Qed.

Lemma bear_case_without_signals_witness :
  generate_bear_case 1 (__init__ strong_record)
  = (Returns bear_fallback_points, __init__ strong_record).
Proof.
  apply (bear_case_without_signals (__init__ strong_record) 0);
    intros x H; vm_compute in H; injection H as <-; vm_compute; reflexivity.
Defined.

(** ** Risk ratings follow their inputs *)

(** Derive what the order of floats gives from the comparisons at hand,
    and close the goal when two of them clash. *)
Ltac float_order :=
  repeat match goal with
  | H1 : (?x <=? ?y)%float = true, H2 : (?y <? ?z)%float = true |- _ =>
      lazymatch goal with
      | _ : (x <? z)%float = true |- _ => fail
      | _ => pose proof (leb_ltb_trans x y z H1 H2)
      end
  | H1 : (?x <? ?y)%float = true, H2 : (?y <=? ?z)%float = true |- _ =>
      lazymatch goal with
      | _ : (x <? z)%float = true |- _ => fail
      | _ => pose proof (ltb_leb_trans x y z H1 H2)
      end
  | H1 : (?x <=? ?y)%float = true, H2 : (?y <=? ?z)%float = true |- _ =>
      lazymatch goal with
      | _ : (x <=? z)%float = true |- _ => fail
      | _ => pose proof (leb_trans x y z H1 H2)
      end
  end;
  congruence.

Ltac rank_cases :=
  repeat case_match; first [ by (vm_compute; lia) | exfalso; float_order ].

(** X22.  The risk ratings follow their inputs.  Between two records,
    a P/E that is no lower never lowers the Valuation rating; growth, a
    current ratio, an ROE or an operating margin that is no higher never
    lowers the Growth, Liquidity or Profitability rating; a current ratio
    that is no higher together with leverage that is no lower never lowers
    the Financial Health rating.  Missing inputs count as their
    defaults. *)
Theorem risk_ratings_follow_inputs (self self' : Generator) :
  ∃ risks risks',
    assess_risks self = (Returns risks, self)
    ∧ assess_risks self' = (Returns risks', self')
    ∧ ((default 20.0 (ratio_value self "PE_Ratio")
        <=? default 20.0 (ratio_value self' "PE_Ratio"))%float = true →
       ∃ level level',
         risks !! "Valuation" = Some level
         ∧ risks' !! "Valuation" = Some level'
         ∧ level_rank level ≤ level_rank level')
    ∧ ((default 0.05 (growth_value self' "Total_Revenue_CAGR")
        <=? default 0.05 (growth_value self "Total_Revenue_CAGR"))%float
       = true →
       ∃ level level',
         risks !! "Growth" = Some level
         ∧ risks' !! "Growth" = Some level'
         ∧ level_rank level ≤ level_rank level')
    ∧ ((default 1.0 (ratio_value self' "Current_Ratio")
        <=? default 1.0 (ratio_value self "Current_Ratio"))%float = true →
       ∃ level level',
         risks !! "Liquidity" = Some level
         ∧ risks' !! "Liquidity" = Some level'
         ∧ level_rank level ≤ level_rank level')
    ∧ ((default 1.0 (ratio_value self' "Current_Ratio")
        <=? default 1.0 (ratio_value self "Current_Ratio"))%float = true →
       (default 1.0 (ratio_value self "Debt_to_Equity")
        <=? default 1.0 (ratio_value self' "Debt_to_Equity"))%float = true →
       ∃ level level',
         risks !! "Financial Health" = Some level
         ∧ risks' !! "Financial Health" = Some level'
         ∧ level_rank level ≤ level_rank level')
    ∧ ((default 0.10 (ratio_value self' "ROE")
        <=? default 0.10 (ratio_value self "ROE"))%float = true →
       (default 0.10 (ratio_value self' "Operating_Margin")
        <=? default 0.10 (ratio_value self "Operating_Margin"))%float
       = true →
       ∃ level level',
         risks !! "Profitability" = Some level
         ∧ risks' !! "Profitability" = Some level'
         ∧ level_rank level ≤ level_rank level').
Proof.
  eexists _, _. split; [apply assess_risks_run|].
  split; [apply assess_risks_run|].
  destruct (risk_table_lookups self) as (-> & -> & -> & -> & ->).
  destruct (risk_table_lookups self') as (-> & -> & -> & -> & ->).
  split_and!.
  - intros Hpe. eexists _, _. split; [done|]. split; [done|].
    unfold valuation. rank_cases.
  - intros Hg. eexists _, _. split; [done|]. split; [done|].
    unfold growth. rank_cases.
  - intros Hcr. eexists _, _. split; [done|]. split; [done|].
    unfold liquidity. rank_cases.
  - intros Hcr Hde. eexists _, _. split; [done|]. split; [done|].
    unfold financial_health.
    repeat match goal with
    | |- context [(?x <=? ?y)%float] =>
        let E := fresh "E" in destruct (x <=? y)%float eqn:E
    | |- context [(?x <? ?y)%float] =>
        let E := fresh "E" in destruct (x <? y)%float eqn:E
    end; simpl; first [ by (vm_compute; lia) | exfalso; float_order ].
  - intros Hroe Hom. eexists _, _. split; [done|]. split; [done|].
    unfold profitability.
    repeat match goal with
    | |- context [(?x <? ?y)%float] =>
        let E := fresh "E" in destruct (x <? y)%float eqn:E
    end; simpl; first [ by (vm_compute; lia) | exfalso; float_order ].
Qed.

(** ** The page *)

(** X23.  The page shows either the one success message in green or
    warnings only: the list [detect_red_flags] returns is the success
    message alone, which passes the test of
    [render_investment_summary_tab], or the warnings of the checks that
    triggered, none of which passes it. *)
Theorem page_shows_one_success_or_only_warnings (self : Generator) :
  ∃ flags,
    detect_red_flags self = (Returns flags, self)
    ∧ ((flags = [no_red_flags] ∧ triggered_flags self = []
        ∧ flag_is_success no_red_flags = true)
       ∨ (flags = triggered_flags self ∧ flags ≠ []
          ∧ Forall (λ flag, flag_is_success flag = false) flags)).
Proof.
  eexists. split; [apply detect_red_flags_run|].
  destruct (triggered_flags self) as [|flag flags] eqn:Hflags; [by left|].
  right. split_and!; [done..|].
  rewrite <- Hflags. apply Forall_forall. intros s Hs.
  apply elem_of_omap_id in Hs. unfold red_flag_checks in Hs.
  rewrite !elem_of_cons, elem_of_nil in Hs.
  destruct Hs as [Hs|[Hs|[Hs|[Hs|[Hs|[]]]]]]; symmetry in Hs;
    apply when_Some in Hs as (x & _ & _ & ->); reflexivity.
Qed.
